(** * Job-posting qualification pipeline (app.py): model and properties

    A shallow embedding of the decision logic of [app.py]: the three
    classification stages, the graph that chains them, the post-pipeline
    filter and enrichment of [process_job], the recency filter and the
    per-domain loop.

    Modelling choices.
    - Python [str] values are [string]s of 8-bit characters.  The model is
      exact on ASCII text: [lower] maps A-Z to a-z and leaves every other
      code alone, and only the ASCII white-space codes split a string.
    - JSON-shaped values (capability replies, search responses, the values
      stored in a posting dictionary) are [pyval]s.  JSON numbers are
      integers here; floating-point replies are outside the model.
    - The external capabilities (chat completion, [json.loads], search) are
      the fields of an environment record [Env]; a reply may depend on the
      history of earlier calls.
    - Python exceptions are the [Raise] outcome of a state-and-error monad;
      [try ... except Exception] is [try_except].
    - Posting dictionaries are mutable objects: they live in a heap
      ([gmap nat (gmap string pyval)]) and are passed by reference.  A
      column can hold any value; where the code prints one in an
      f-string the model prints it with [Py.str].
    - The module-level variable [GLOBAL_FIELD] is a component of the world.
    - A ghost trace records every external call, every stage entered by the
      graph runner and every write to a decision slot. *)

From Stdlib Require Import ZArith Bool Ascii String List Lia.
From stdpp Require Import base option gmap strings list fin_maps pretty.

Local Open Scope string_scope.

(** ** Python strings *)

Module PyStr.

Definition is_upper (c : ascii) : bool :=
  let n := nat_of_ascii c in Nat.leb 65 n && Nat.leb n 90.

Definition lower_char (c : ascii) : ascii :=
  if is_upper c then ascii_of_nat (nat_of_ascii c + 32) else c.

(** [str.lower()] *)
Fixpoint lower (s : string) : string :=
  match s with
  | EmptyString => EmptyString
  | String c s' => String (lower_char c) (lower s')
  end.

(** [s.startswith(p)] *)
Fixpoint startswith (p s : string) : bool :=
  match p, s with
  | EmptyString, _ => true
  | String _ _, EmptyString => false
  | String a p', String b s' => Ascii.eqb a b && startswith p' s'
  end.

(** [p in s] for two strings: [p] occurs in [s] as a substring. *)
Fixpoint contains (p s : string) : bool :=
  startswith p s ||
  match s with
  | EmptyString => false
  | String _ s' => contains p s'
  end.

(** The characters [str.split()] and [str.strip()] treat as white space. *)
Definition is_space (c : ascii) : bool :=
  let n := nat_of_ascii c in
  (Nat.leb 9 n && Nat.leb n 13) || (Nat.leb 28 n && Nat.leb n 32).

(** [s.split()]: the maximal runs of non-space characters, in order.
    [cur] is the run being read. *)
Fixpoint split_from (cur s : string) : list string :=
  match s with
  | EmptyString => match cur with EmptyString => [] | _ => [cur] end
  | String c s' =>
      if is_space c then
        match cur with
        | EmptyString => split_from EmptyString s'
        | _ => cur :: split_from EmptyString s'
        end
      else split_from (cur +:+ String c EmptyString) s'
  end.

Definition split (s : string) : list string := split_from EmptyString s.

Fixpoint lstrip (s : string) : string :=
  match s with
  | EmptyString => EmptyString
  | String c s' => if is_space c then lstrip s' else s
  end.

Fixpoint rstrip (s : string) : string :=
  match s with
  | EmptyString => EmptyString
  | String c s' =>
      match rstrip s' with
      | EmptyString => if is_space c then EmptyString else String c EmptyString
      | r => String c r
      end
  end.

(** [s.strip()] *)
Definition strip (s : string) : string := rstrip (lstrip s).

(** The double-quote character and the line feed, for building prompts. *)
Definition dq : string := String "034"%char EmptyString.
Definition nl : string := String "010"%char EmptyString.

(** Specification-level substring relation. *)
Definition occurs_in (p s : string) : Prop :=
  exists pre post : string, s = pre +:+ p +:+ post.

End PyStr.

(** ** Recency filter *)

Definition recency_phrases : list string :=
  ["just now"; "few hours"; "today"; "1 day"; "2 days"; "3 days"].

(** [is_job_recent(date_str)] *)
Definition is_job_recent (date_str : string) : bool :=
  let low := PyStr.lower date_str in
  existsb (fun x => PyStr.contains x low) recency_phrases.

(** ** Python values *)

(** What [json.loads] and the search client can return, and what a posting
    dictionary can hold.  A [PDict] lists the items of a dictionary; a key
    is looked up at its first binding. *)
#[warnings="-register-all"] Inductive pyval : Type :=
  | PNone
  | PBool (b : bool)
  | PInt (z : Z)
  | PStr (s : string)
  | PList (l : list pyval)
  | PDict (d : list (string * pyval)).

Inductive exn : Type :=
  | KeyError | TypeError | IndexError | AttributeError | ValueError
  | JSONDecodeError | APIError | GraphRecursionError.

(** Result of evaluating an expression that may raise. *)
Inductive outcome (A : Type) : Type :=
  | Ok (a : A)
  | Raise (e : exn).
Arguments Ok {A} a.
Arguments Raise {A} e.

Module Py.

(** Truth value of an object, as [if x], [x or y] and [not x] test it. *)
Definition truthy (v : pyval) : bool :=
  match v with
  | PNone => false
  | PBool b => b
  | PInt z => negb (Z.eqb z 0)
  | PStr s => negb (String.eqb s EmptyString)
  | PList l => match l with [] => false | _ => true end
  | PDict d => match d with [] => false | _ => true end
  end.

Fixpoint assoc (k : string) (d : list (string * pyval)) : option pyval :=
  match d with
  | [] => None
  | (k', v) :: d' => if String.eqb k k' then Some v else assoc k d'
  end.

(** [k == v] for a string [k]. *)
Definition str_eq (k : string) (v : pyval) : bool :=
  match v with
  | PStr s => String.eqb k s
  | _ => false
  end.

(** [k in v] for a string [k]. *)
Definition contains (k : string) (v : pyval) : outcome bool :=
  match v with
  | PDict d => Ok (match assoc k d with Some _ => true | None => false end)
  | PList l => Ok (existsb (str_eq k) l)
  | PStr s => Ok (PyStr.contains k s)
  | _ => Raise TypeError
  end.

(** [v[k]] for a string [k]. *)
Definition getitem (v : pyval) (k : string) : outcome pyval :=
  match v with
  | PDict d => match assoc k d with Some x => Ok x | None => Raise KeyError end
  | _ => Raise TypeError
  end.

(** [v[0]] *)
Definition getitem0 (v : pyval) : outcome pyval :=
  match v with
  | PList l => match l with x :: _ => Ok x | [] => Raise IndexError end
  | PStr s =>
      match s with
      | String c _ => Ok (PStr (String c EmptyString))
      | EmptyString => Raise IndexError
      end
  | PDict _ => Raise KeyError
  | _ => Raise TypeError
  end.

(** [v.get(k, dflt)]: only dictionaries have the method. *)
Definition get (v : pyval) (k : string) (dflt : pyval) : outcome pyval :=
  match v with
  | PDict d => Ok (match assoc k d with Some x => x | None => dflt end)
  | _ => Raise AttributeError
  end.

(** [v.lower()]: only strings have the method. *)
Definition lower (v : pyval) : outcome string :=
  match v with
  | PStr s => Ok (PyStr.lower s)
  | _ => Raise AttributeError
  end.

(** [repr] of a string made of printable ASCII characters without
    backslash: single quotes, unless it holds a single quote and no double
    quote. *)
Definition repr_str (s : string) : string :=
  if PyStr.contains "'" s && negb (PyStr.contains PyStr.dq s)
  then PyStr.dq +:+ s +:+ PyStr.dq
  else "'" +:+ s +:+ "'".

Fixpoint join (sep : string) (l : list string) : string :=
  match l with
  | [] => EmptyString
  | [x] => x
  | x :: l' => x +:+ sep +:+ join sep l'
  end.

(** [repr] of a list of such strings, as an f-string prints it. *)
Definition repr_list (l : list string) : string :=
  "[" +:+ join ", " (map repr_str l) +:+ "]".

Definition hex_digit (n : nat) : string :=
  String.substring n 1 "0123456789abcdef".

(** One character inside the quotes of [repr] of a string. *)
Definition escape_char (quote c : ascii) : string :=
  let n := nat_of_ascii c in
  if Nat.eqb n 92 then "\\"
  else if Ascii.eqb c quote then "\" +:+ String quote EmptyString
  else if Nat.eqb n 10 then "\n"
  else if Nat.eqb n 13 then "\r"
  else if Nat.eqb n 9 then "\t"
  else if Nat.ltb n 32 || (Nat.leb 127 n && Nat.leb n 160) || Nat.eqb n 173
  then "\x" +:+ hex_digit (n / 16) +:+ hex_digit (n mod 16)
  else String c EmptyString.

Fixpoint escape (quote : ascii) (s : string) : string :=
  match s with
  | EmptyString => EmptyString
  | String c s' => escape_char quote c +:+ escape quote s'
  end.

(** [repr] of any string: double quotes when the string holds a single
    quote and no double quote, single quotes otherwise; backslash, the
    quote used and the characters that do not print are escaped. *)
Definition repr_text (s : string) : string :=
  if PyStr.contains "'" s && negb (PyStr.contains PyStr.dq s)
  then PyStr.dq +:+ escape "034" s +:+ PyStr.dq
  else "'" +:+ escape "'" s +:+ "'".

(** [repr(v)] *)
Fixpoint repr (v : pyval) : string :=
  match v with
  | PNone => "None"
  | PBool b => if b then "True" else "False"
  | PInt z => pretty z
  | PStr s => repr_text s
  | PList l => "[" +:+ join ", " (map repr l) +:+ "]"
  | PDict d =>
      "{" +:+
      join ", "
        (map (fun kv => let '(k, x) := kv in repr_text k +:+ ": " +:+ repr x)
           d)
      +:+ "}"
  end.

(** [str(v)], which is how an f-string prints [{v}]: a string as it is,
    any other value by its [repr]. *)
Definition str (v : pyval) : string :=
  match v with
  | PStr s => s
  | _ => repr v
  end.

End Py.

(** ** The scraper's row builder *)

(** One [div.srp-jobtuple-wrapper] of the parsed page, as [scrape_url]
    queries it: [select_one sel] is the stripped text
    ([get_text(strip=True)]) of the first element matching [sel], [None]
    when nothing matches; [select_all sel] lists the stripped texts of
    all the elements matching [sel]. *)
Record listing : Type := mkListing {
  select_one : string -> option string;
  select_all : string -> list string
}.

Definition obind {A B} (o : outcome A) (k : A -> outcome B) : outcome B :=
  match o with
  | Ok a => k a
  | Raise e => Raise e
  end.

(** [w.select_one(sel).get_text(strip=True) or '']: [select_one] returns
    [None] when nothing matches, and [None] has no [get_text]. *)
Definition text_or_empty (l : listing) (sel : string) : outcome pyval :=
  match select_one l sel with
  | None => Raise AttributeError
  | Some t => Ok (if Py.truthy (PStr t) then PStr t else PStr "")
  end.

(** The selectors of the seven single-valued columns, in the order the
    dictionary literal evaluates them. *)
Definition column_selectors : list (string * string) :=
  [("Title", "a.title");
   ("Company", "a.comp-name, a.subTitle");
   ("Experience", "span.expwdth, li.experience");
   ("Description", "span.job-desc, div.job-description");
   ("Posted Date", "span.fleft.postedDate, span.job-post-day");
   ("Location", "span.locWdth, li.location");
   ("Salary", "span.sal-wrap, li.salary")].

(** The dictionary appended to [rows] for one wrapper. *)
Definition scrape_row (l : listing) : outcome (gmap string pyval) :=
  obind (text_or_empty l "a.title") (fun title =>
  obind (text_or_empty l "a.comp-name, a.subTitle") (fun company =>
  obind (text_or_empty l "span.expwdth, li.experience") (fun experience =>
  obind (text_or_empty l "span.job-desc, div.job-description") (fun description =>
  obind (text_or_empty l "span.fleft.postedDate, span.job-post-day") (fun posted =>
  obind (text_or_empty l "span.locWdth, li.location") (fun location =>
  obind (text_or_empty l "span.sal-wrap, li.salary") (fun salary =>
  let skills := PStr (Py.join ", " (select_all l "li.tag, li.tag-li")) in
  Ok (list_to_map
        [("Title", title); ("Company", company); ("Experience", experience);
         ("Description", description); ("Posted Date", posted);
         ("Location", location); ("Salary", salary);
         ("Skills", skills)])))))))).

(** The [for w in soup.select(...)] loop of [scrape_url]. *)
Fixpoint scrape_rows (ws : list listing) : outcome (list (gmap string pyval)) :=
  match ws with
  | [] => Ok []
  | l :: ws' =>
      obind (scrape_row l) (fun row =>
      obind (scrape_rows ws') (fun rows => Ok (row :: rows)))
  end.

(** [scrape_url(url, fc_app)].  [fetch url] is the list of wrappers
    [soup.select('div.srp-jobtuple-wrapper')] finds in the page fetched
    from [url], [None] when fetching or parsing raises.  The data frame
    returned is the list of its rows. *)
Definition scrape_url (fetch : string -> option (list listing))
    (url : string) : outcome (list (gmap string pyval)) :=
  match fetch url with
  | None => Raise APIError
  | Some ws => scrape_rows ws
  end.

(** A wrapper in which each of the seven single-valued elements is
    found. *)
Definition complete (l : listing) : Prop :=
  Forall (fun cs => is_Some (select_one l (snd cs))) column_selectors.

(** The row [scrape_row] builds from a complete wrapper, column by
    column. *)
Definition column_text (l : listing) (sel : string) : string :=
  default "" (select_one l sel).

(** A wrapper with every element and two skill tags, and one without a
    salary element. *)
Definition full_listing : listing :=
  mkListing (fun sel => Some ("text of " +:+ sel))
    (fun _ => ["python"; "sql"]).

Definition no_salary_listing : listing :=
  mkListing
    (fun sel =>
       if String.eqb sel "span.sal-wrap, li.salary" then None
       else Some ("text of " +:+ sel))
    (fun _ => []).

(** ** World, environment and effects *)

Inductive event : Type :=
  | EClassify (prompt : string)        (* client.chat.completions.create *)
  | ESearch (query : string)           (* tavily_client.search *)
  | EStage (node : string)             (* a graph node starts running *)
  | EWrite (slot : string) (v : pyval) (* state[slot] = v *).

Record world : Type := mkWorld {
  GLOBAL_FIELD : string;
  heap : gmap nat (gmap string pyval);
  trace : list event
}.

(** The external collaborators.  [None] stands for a raised exception.
    - [groq_create hist prompt]: the text of [res.choices[0].message.content]
      for a chat completion of [prompt];
    - [json_loads]: the JSON parser;
    - [tavily_search hist query]: the response of
      [tavily_client.search(query=query, max_results=1)];
    - [firecrawl_scrape url]: the listing wrappers that [scrape_url]
      finds in the page it fetches from [url]
      ([fc_app.scrape_url], the parse and [soup.select]). *)
Record Env : Type := mkEnv {
  groq_create : list event -> string -> option string;
  json_loads : string -> option pyval;
  tavily_search : list event -> string -> option pyval;
  firecrawl_scrape : string -> option (list listing)
}.

Definition M (A : Type) : Type := world -> outcome A * world.

Definition ret {A} (a : A) : M A := fun w => (Ok a, w).

Definition bind {A B} (m : M A) (k : A -> M B) : M B :=
  fun w =>
    match m w with
    | (Ok a, w') => k a w'
    | (Raise e, w') => (Raise e, w')
    end.

Definition raise {A} (e : exn) : M A := fun w => (Raise e, w).

(** [try: body / except Exception: handler] *)
Definition try_except {A} (body handler : M A) : M A :=
  fun w =>
    match body w with
    | (Ok a, w') => (Ok a, w')
    | (Raise _, w') => handler w'
    end.

Definition lift {A} (o : outcome A) : M A := fun w => (o, w).

Definition emit (e : event) : M unit :=
  fun w => (Ok tt, mkWorld (GLOBAL_FIELD w) (heap w) (trace w ++ [e])).

Definition get_world : M world := fun w => (Ok w, w).

Definition set_global_field (f : string) : M unit :=
  fun w => (Ok tt, mkWorld f (heap w) (trace w)).

Definition set_heap (h : gmap nat (gmap string pyval)) : M unit :=
  fun w => (Ok tt, mkWorld (GLOBAL_FIELD w) h (trace w)).

Declare Scope py_scope.
Delimit Scope py_scope with py.
Notation "x <- m ;; k" := (bind m (fun x => k))
  (at level 100, m at next level, right associativity) : py_scope.
Notation "m ;;; k" := (bind m (fun _ => k))
  (at level 100, right associativity) : py_scope.
Local Open Scope py_scope.

(** ** The posting object and the classification state *)

(** [job[k]] for the dictionary at reference [job]. *)
Definition dict_getitem (job : nat) (k : string) : M pyval :=
  fun w =>
    match heap w !! job with
    | Some d =>
        match d !! k with
        | Some v => (Ok v, w)
        | None => (Raise KeyError, w)
        end
    | None => (Raise KeyError, w)
    end.

(** [job[k] = v]: in-place update of the dictionary at reference [job]. *)
Definition dict_setitem (job : nat) (k : string) (v : pyval) : M unit :=
  fun w =>
    match heap w !! job with
    | Some d =>
        (Ok tt, mkWorld (GLOBAL_FIELD w) (<[job := <[k := v]> d]> (heap w)) (trace w))
    | None => (Raise KeyError, w)
    end.

(** [class JobState(TypedDict)].  An unset slot holds [PNone]. *)
Record JobState : Type := mkJobState {
  Title : string;
  Company : string;
  Experience : string;
  Description : string;
  is_relevant : pyval;
  is_competitor : pyval;
  job_tier : pyval
}.

Definition with_is_relevant (v : pyval) (st : JobState) : JobState :=
  mkJobState (Title st) (Company st) (Experience st) (Description st)
    v (is_competitor st) (job_tier st).

Definition with_is_competitor (v : pyval) (st : JobState) : JobState :=
  mkJobState (Title st) (Company st) (Experience st) (Description st)
    (is_relevant st) v (job_tier st).

Definition with_job_tier (v : pyval) (st : JobState) : JobState :=
  mkJobState (Title st) (Company st) (Experience st) (Description st)
    (is_relevant st) (is_competitor st) v.

(** [state['is_relevant'] = v] *)
Definition set_is_relevant (v : pyval) (st : JobState) : M JobState :=
  emit (EWrite "is_relevant" v) ;;; ret (with_is_relevant v st).

(** [state['is_competitor'] = v] *)
Definition set_is_competitor (v : pyval) (st : JobState) : M JobState :=
  emit (EWrite "is_competitor" v) ;;; ret (with_is_competitor v st).

(** [state['job_tier'] = v] *)
Definition set_job_tier (v : pyval) (st : JobState) : M JobState :=
  emit (EWrite "job_tier" v) ;;; ret (with_job_tier v st).

Definition FIELD_KEYWORDS : gmap string string :=
  list_to_map
    [("Data Science", "data scientist");
     ("Human Resources", "human resources");
     ("Digital Transformation", "digital transformation");
     ("Cyber Security", "cyber security");
     ("FinTech", "fintech");
     ("Project Management", "project management");
     ("Strategic Management", "strategic management");
     ("Business Management", "business management");
     ("General Management", "general management");
     ("Product Management", "product management")].

(** ** External calls *)

Section Capabilities.
Context (E : Env).

(** [client.chat.completions.create(...)] followed by
    [res.choices[0].message.content]. *)
Definition chat_completion (prompt : string) : M string :=
  w <- get_world ;;
  emit (EClassify prompt) ;;;
  match groq_create E (trace w) prompt with
  | Some content => ret content
  | None => raise APIError
  end.

(** [json.loads(content)] *)
Definition loads (content : string) : M pyval :=
  match json_loads E content with
  | Some v => ret v
  | None => raise JSONDecodeError
  end.

(** [tavily_client.search(query=query, max_results=1)] *)
Definition search (query : string) : M pyval :=
  w <- get_world ;;
  emit (ESearch query) ;;;
  match tavily_search E (trace w) query with
  | Some resp => ret resp
  | None => raise APIError
  end.

(** ** Enrichment resolver *)

(** [search_with_tavily(query, tavily_client)] *)
Definition search_with_tavily (query : string) : M pyval :=
  try_except
    (resp <- search query ;;
     has <- lift (Py.contains "results" resp) ;;
     if has then
       results <- lift (Py.getitem resp "results") ;;
       if Py.truthy results then
         results' <- lift (Py.getitem resp "results") ;;
         first <- lift (Py.getitem0 results') ;;
         lift (Py.getitem first "url")
       else ret (PStr "")
     else ret (PStr ""))
    (ret (PStr "")).

(** [get_company_career_page(company_name, tavily_client)] *)
Definition get_company_career_page (company_name : string) : M pyval :=
  url <- search_with_tavily (company_name +:+ " careers") ;;
  if Py.truthy url then ret url else search_with_tavily company_name.

End Capabilities.

(** ** The three stages *)

Section Stages.
Context (E : Env).

(** The acceptance tokens of the keyword shortcut:
    [[v.strip() for v in FIELD_KEYWORDS.get(f, f).split()] + [f]]. *)
Definition variants (f : string) : list string :=
  map PyStr.strip (PyStr.split (default f (FIELD_KEYWORDS !! f))) ++ [f].

(** The text the shortcut searches:
    [(state['Title'] + ' ' + state['Description']).lower()]. *)
Definition relevance_text (state : JobState) : string :=
  PyStr.lower (Title state +:+ " " +:+ Description state).

Definition relevance_prompt (f : string) (state : JobState) : string :=
  PyStr.nl +:+ "Job Title: " +:+ Title state +:+ PyStr.nl
  +:+ "Company: " +:+ Company state +:+ PyStr.nl
  +:+ "Description: " +:+ Description state +:+ PyStr.nl
  +:+ "Is this a genuine " +:+ f +:+ " job? Respond {"
  +:+ PyStr.dq +:+ "is_relevant" +:+ PyStr.dq +:+ ":"
  +:+ PyStr.dq +:+ "Yes" +:+ PyStr.dq +:+ " or "
  +:+ PyStr.dq +:+ "No" +:+ PyStr.dq +:+ "}." +:+ PyStr.nl.

(** The keyword shortcut: [any(kw in text for kw in variants)]. *)
Definition shortcut (f : string) (state : JobState) : bool :=
  let text := relevance_text state in
  existsb (fun kw => PyStr.contains kw text) (variants f).

(** [check_relevance(state, client)] *)
Definition check_relevance (state : JobState) : M JobState :=
  w <- get_world ;;
  if shortcut (GLOBAL_FIELD w) state
  then set_is_relevant (PStr "Yes") state
  else
    let prompt := relevance_prompt (GLOBAL_FIELD w) state in
    try_except
      (content <- chat_completion E prompt ;;
       out <- loads E content ;;
       v <- lift (Py.get out "is_relevant" (PStr "No")) ;;
       set_is_relevant v state)
      (set_is_relevant (PStr "No") state).

Definition competitor_list : list string :=
  ["BYJU'S"; "Unacademy"; "Vedantu"; "Toppr"; "UpGrad"; "Simplilearn";
   "WhiteHat Jr."; "Classplus"; "Embibe"; "EduGorilla"; "iQuanta";
   "TrainerCentral"; "Meritnation"; "Testbook"; "Edukart"; "Adda247";
   "CollegeDekho"; "Leverage Edu"; "Next Education"; "Infinity Learn"].

Definition competitor_prompt (state : JobState) : string :=
  "Job Company: " +:+ Company state +:+ PyStr.nl
  +:+ "Is it in " +:+ Py.repr_list competitor_list +:+ "? Return {"
  +:+ PyStr.dq +:+ "is_competitor" +:+ PyStr.dq +:+ ": "
  +:+ PyStr.dq +:+ "Yes" +:+ PyStr.dq +:+ " or "
  +:+ PyStr.dq +:+ "No" +:+ PyStr.dq +:+ "}.".

(** [check_competitor(state, client)] *)
Definition check_competitor (state : JobState) : M JobState :=
  let prompt := competitor_prompt state in
  try_except
    (content <- chat_completion E prompt ;;
     out <- loads E content ;;
     v <- lift (Py.get out "is_competitor" (PStr "No")) ;;
     set_is_competitor v state)
    (set_is_competitor (PStr "No") state).

Definition tier_prompt (state : JobState) : string :=
  "Job Title: " +:+ Title state +:+ PyStr.nl
  +:+ "Experience: " +:+ Experience state +:+ PyStr.nl
  +:+ "Respond {" +:+ PyStr.dq +:+ "job_tier" +:+ PyStr.dq +:+ ": "
  +:+ PyStr.dq +:+ "Fresher" +:+ PyStr.dq +:+ "/"
  +:+ PyStr.dq +:+ "Mid" +:+ PyStr.dq +:+ "/"
  +:+ PyStr.dq +:+ "Senior" +:+ PyStr.dq +:+ "}.".

(** [determine_tier(state, client)] *)
Definition determine_tier (state : JobState) : M JobState :=
  let prompt := tier_prompt state in
  try_except
    (content <- chat_completion E prompt ;;
     out <- loads E content ;;
     v <- lift (Py.get out "job_tier" (PStr "N/A")) ;;
     set_job_tier v state)
    (set_job_tier (PStr "N/A") state).

(** ** The stage graph *)

(** [StateGraph(JobState)]: named nodes and directed edges.  The entry
    point is an edge from [START], the finish point an edge to [END]. *)
Record StateGraph : Type := mkGraph {
  nodes : list (string * (JobState -> M JobState));
  edges : list (string * string)
}.

Definition START : string := "__start__".
Definition END : string := "__end__".

Definition empty_graph : StateGraph := mkGraph [] [].

Definition add_node (name : string) (f : JobState -> M JobState)
    (g : StateGraph) : StateGraph :=
  mkGraph (nodes g ++ [(name, f)]) (edges g).

Definition add_edge (a b : string) (g : StateGraph) : StateGraph :=
  mkGraph (nodes g) (edges g ++ [(a, b)]).

Definition set_entry_point (k : string) (g : StateGraph) : StateGraph :=
  add_edge START k g.

Definition set_finish_point (k : string) (g : StateGraph) : StateGraph :=
  add_edge k END g.

(** [build_graph(client)] *)
Definition build_graph : StateGraph :=
  let g := empty_graph in
  let g := add_node "relevance" check_relevance g in
  let g := add_node "competitor" check_competitor g in
  let g := add_node "tier" determine_tier g in
  let g := add_edge "relevance" "competitor" g in
  let g := add_edge "competitor" "tier" g in
  let g := set_entry_point "relevance" g in
  let g := set_finish_point "tier" g in
  g.

(** The first entry recorded under the name [k]. *)
Fixpoint find_named {A} (k : string) (l : list (string * A)) : option A :=
  match l with
  | [] => None
  | (k', a) :: l' => if String.eqb k k' then Some a else find_named k l'
  end.

(** The runner of a compiled graph in which every node has one outgoing
    edge: from [cur], follow the edge, stop at [END], otherwise run the
    node it leads to on the current state and go on from there.  [fuel]
    is the step limit. *)
Fixpoint run (g : StateGraph) (fuel : nat) (cur : string)
    (state : JobState) : M JobState :=
  match fuel with
  | O => raise GraphRecursionError
  | S fuel' =>
      match find_named cur (edges g) with
      | None => raise ValueError
      | Some next =>
          if String.eqb next END then ret state
          else
            match find_named next (nodes g) with
            | None => raise ValueError
            | Some f =>
                emit (EStage next) ;;;
                state' <- f state ;;
                run g fuel' next state'
            end
      end
  end.

Definition recursion_limit : nat := 25.

(** [g.compile().invoke(state)] *)
Definition invoke (g : StateGraph) (state : JobState) : M JobState :=
  run g recursion_limit START state.

(** ** Post-pipeline filter and enrichment *)

(** Lines 125-131 of [process_job]: set the global domain, read the
    four judged columns (each read raises [KeyError] when the column is
    missing, nothing checks what it holds), build the classification
    state and run the compiled graph.

    The stages use [Company] and [Experience] only inside f-strings,
    which print them with [str()]: the state keeps that text.  [Title]
    and [Description] are concatenated on line 57 of [check_relevance];
    when one of them is not a string that line raises [TypeError] as
    soon as the relevance node runs, and nothing catches it. *)
Definition classify (job : nat) (field : string) : M JobState :=
  set_global_field field ;;;
  title <- dict_getitem job "Title" ;;
  company <- dict_getitem job "Company" ;;
  experience <- dict_getitem job "Experience" ;;
  description <- dict_getitem job "Description" ;;
  match title, description with
  | PStr t, PStr ds =>
      let state :=
        mkJobState t (Py.str company) (Py.str experience) ds
          PNone PNone PNone in
      invoke build_graph state
  | _, _ => emit (EStage "relevance") ;;; raise TypeError
  end.

(** The condition of the [if] on line 132:
    [result['is_relevant'].lower()!='yes' or
     result['is_competitor'].lower()!='no'].
    The right operand is evaluated only when the left one is false. *)
Definition gate_drops (result : JobState) : outcome bool :=
  match Py.lower (is_relevant result) with
  | Raise e => Raise e
  | Ok r =>
      if negb (String.eqb r "yes") then Ok true
      else
        match Py.lower (is_competitor result) with
        | Raise e => Raise e
        | Ok c => Ok (negb (String.eqb c "no"))
        end
  end.

(** Lines 134-139 of [process_job]: attach the tier, resolve the careers
    page, attach the link.  The first query prints the company name
    with [str()]; a name that is not a string is recorded by that text
    in the second query too. *)
Definition enrich (job : nat) (result : JobState) : M (option nat) :=
  dict_setitem job "Job Tier" (job_tier result) ;;;
  company_name <- dict_getitem job "Company" ;;
  link <- get_company_career_page E (Py.str company_name) ;;
  if negb (Py.truthy link) then ret None
  else
    dict_setitem job "Job Link" link ;;;
    ret (Some job).

(** [process_job(job, field, client, tavily_client)].  [job] is the
    reference of the caller's dictionary; the result is [None] or that
    same reference. *)
Definition process_job (job : nat) (field : string) : M (option nat) :=
  result <- classify job field ;;
  drop <- lift (gate_drops result) ;;
  if drop then ret None else enrich job result.

(** ** Domain loop *)

(** [df_raw.to_dict('records')]: each row becomes a new dictionary. *)
Fixpoint alloc_records (rows : list (gmap string pyval)) : M (list nat) :=
  match rows with
  | [] => ret []
  | d :: rows' =>
      w <- get_world ;;
      let l := fresh (dom (heap w)) in
      set_heap (<[l := d]> (heap w)) ;;;
      ls <- alloc_records rows' ;;
      ret (l :: ls)
  end.

(** Truth value of the dictionary a reference points to. *)
Definition dict_truthy (r : nat) : M bool :=
  w <- get_world ;;
  match heap w !! r with
  | Some d => ret (negb (bool_decide (dom d = ∅)))
  | None => raise KeyError
  end.

(** [is_job_recent] applied to a dictionary value: [date_str.lower()]
    needs a string. *)
Definition is_job_recent_of (v : pyval) : outcome bool :=
  match v with
  | PStr date_str => Ok (is_job_recent date_str)
  | _ => Raise AttributeError
  end.

(** The body of the [for job in ...] loop, with the list [processed]:
    [p = process_job(...)], then
    [if p and is_job_recent(job['Posted Date']): processed.append(p)]. *)
Definition loop_body (domain : string) (job : nat) (processed : list nat)
    : M (list nat) :=
  p <- process_job job domain ;;
  match p with
  | None => ret processed
  | Some r =>
      t <- dict_truthy r ;;
      if t then
        date <- dict_getitem job "Posted Date" ;;
        recent <- lift (is_job_recent_of date) ;;
        if recent then ret (processed ++ [r])%list else ret processed
      else ret processed
  end.

Fixpoint loop (domain : string) (jobs : list nat) (processed : list nat)
    : M (list nat) :=
  match jobs with
  | [] => ret processed
  | job :: jobs' =>
      processed' <- loop_body domain job processed ;;
      loop domain jobs' processed'
  end.

Definition listings_url (keyword : string) : string :=
  "https://www.naukri.com/jobs-in-india?k=" +:+ keyword
  +:+ "&l=india&jobAge=3".

(** [pd.DataFrame(processed)]: the rows are the current contents of the
    referenced dictionaries. *)
Fixpoint rows_of (processed : list nat) : M (list (gmap string pyval)) :=
  match processed with
  | [] => ret []
  | r :: rs =>
      w <- get_world ;;
      match heap w !! r with
      | Some d => ds <- rows_of rs ;; ret (d :: ds)
      | None => raise KeyError
      end
  end.

(** [scrape_jobs_for_domain(domain, client, tavily_client, fc_app)].
    The assignment to [GLOBAL_FIELD] on its first line binds a local
    name and is not modelled.  An exception of [scrape_url] is not
    caught. *)
Definition scrape_jobs_for_domain (domain : string)
    : M (list (gmap string pyval)) :=
  match FIELD_KEYWORDS !! domain with
  | None => raise KeyError
  | Some keyword =>
      df_raw <- lift (scrape_url (firecrawl_scrape E) (listings_url keyword)) ;;
      jobs <- alloc_records df_raw ;;
      processed <- loop domain jobs [] ;;
      rows_of processed
  end.

End Stages.

(** ** Specification-level vocabulary *)

(** The world after the events [evs] have been recorded. *)
Definition log (w : world) (evs : list event) : world :=
  mkWorld (GLOBAL_FIELD w) (heap w) (trace w ++ evs).

(** Number of calls to the classification capability in a trace. *)
Fixpoint classify_calls (evs : list event) : nat :=
  match evs with
  | [] => 0
  | EClassify _ :: evs' => S (classify_calls evs')
  | _ :: evs' => classify_calls evs'
  end.

(** The queries sent to the search capability, in order. *)
Fixpoint search_queries (evs : list event) : list string :=
  match evs with
  | [] => []
  | ESearch q :: evs' => q :: search_queries evs'
  | _ :: evs' => search_queries evs'
  end.

(** The stage and slot-write events of a trace, in order. *)
Fixpoint lifecycle (evs : list event) : list event :=
  match evs with
  | [] => []
  | EStage n :: evs' => EStage n :: lifecycle evs'
  | EWrite k v :: evs' => EWrite k v :: lifecycle evs'
  | _ :: evs' => lifecycle evs'
  end.

(** The value a stage stores after calling the capability with [prompt]:
    the reply's value under [key], or [dflt] when the call fails, the
    content does not parse, the parsed value is not a dictionary or the
    key is missing. *)
Definition stage_value (E : Env) (hist : list event) (prompt key : string)
    (dflt : pyval) : pyval :=
  match groq_create E hist prompt with
  | None => dflt
  | Some content =>
      match json_loads E content with
      | Some (PDict d) => default dflt (Py.assoc key d)
      | _ => dflt
      end
  end.

(** The call to the capability or the parse of its reply fails. *)
Definition capability_fails (E : Env) (hist : list event) (prompt : string)
    : Prop :=
  match groq_create E hist prompt with
  | None => True
  | Some content => json_loads E content = None
  end.

(** What [search_with_tavily] makes of a search outcome: the ["url"] of
    the first entry of ["results"], or the empty string. *)
Definition url_of (resp : option pyval) : pyval :=
  match resp with
  | None => PStr ""
  | Some r =>
      match Py.contains "results" r with
      | Ok true =>
          match Py.getitem r "results" with
          | Ok results =>
              if Py.truthy results then
                match Py.getitem0 results with
                | Ok first =>
                    match Py.getitem first "url" with
                    | Ok u => u
                    | Raise _ => PStr ""
                    end
                | Raise _ => PStr ""
                end
              else PStr ""
          | Raise _ => PStr ""
          end
      | _ => PStr ""
      end
  end.

(** The tier values the specification allows. *)
Definition tiers : list pyval :=
  [PStr "Fresher"; PStr "Mid"; PStr "Senior"; PStr "N/A"].

(** The columns the scraper fills. *)
Definition scraped_columns : list string :=
  ["Title"; "Company"; "Experience"; "Description"; "Posted Date";
   "Location"; "Salary"; "Skills"].

(** The posting has the four judged columns, each holding text. *)
Definition judged (d : gmap string pyval) (t c e ds : string) : Prop :=
  d !! "Title" = Some (PStr t) /\ d !! "Company" = Some (PStr c)
  /\ d !! "Experience" = Some (PStr e) /\ d !! "Description" = Some (PStr ds).

(** No character of the string is white space. *)
Fixpoint nospace (s : string) : bool :=
  match s with
  | EmptyString => true
  | String c s' => negb (PyStr.is_space c) && nospace s'
  end.

(** Number of writes to a decision slot in a trace. *)
Fixpoint writes_to (slot : string) (evs : list event) : nat :=
  match evs with
  | [] => 0
  | EWrite k _ :: evs' =>
      (if String.eqb k slot then 1 else 0) + writes_to slot evs'
  | _ :: evs' => writes_to slot evs'
  end.

(** ** Sample environments and postings *)

(** Two scraped rows; no keyword of "Data Science" occurs in the second. *)
Definition sample_posting : gmap string pyval :=
  list_to_map
    [("Title", PStr "Data Scientist"); ("Company", PStr "Acme Corp");
     ("Experience", PStr "2 years");
     ("Description", PStr "Looking for a data scientist...");
     ("Posted Date", PStr "Today"); ("Location", PStr "Pune");
     ("Salary", PStr "Not disclosed"); ("Skills", PStr "python, sql")].

Definition plain_posting : gmap string pyval :=
  list_to_map
    [("Title", PStr "Chef"); ("Company", PStr "Acme Corp");
     ("Experience", PStr "2 years"); ("Description", PStr "Kitchen work");
     ("Posted Date", PStr "Today"); ("Location", PStr "Pune");
     ("Salary", PStr "Not disclosed"); ("Skills", PStr "cooking")].

(** The wrappers [sample_posting] and [plain_posting] are scraped
    from. *)
Definition sample_listing : listing :=
  mkListing
    (fun sel =>
       find_named sel
         [("a.title", "Data Scientist");
          ("a.comp-name, a.subTitle", "Acme Corp");
          ("span.expwdth, li.experience", "2 years");
          ("span.job-desc, div.job-description",
           "Looking for a data scientist...");
          ("span.fleft.postedDate, span.job-post-day", "Today");
          ("span.locWdth, li.location", "Pune");
          ("span.sal-wrap, li.salary", "Not disclosed")])
    (fun _ => ["python"; "sql"]).

Definition plain_listing : listing :=
  mkListing
    (fun sel =>
       find_named sel
         [("a.title", "Chef");
          ("a.comp-name, a.subTitle", "Acme Corp");
          ("span.expwdth, li.experience", "2 years");
          ("span.job-desc, div.job-description", "Kitchen work");
          ("span.fleft.postedDate, span.job-post-day", "Today");
          ("span.locWdth, li.location", "Pune");
          ("span.sal-wrap, li.salary", "Not disclosed")])
    (fun _ => ["cooking"]).

(** Every completion parses to an object that answers all three stages,
    with a tier outside the three the prompt names; every search finds
    one result; the listings page has two rows. *)
Definition env_lead : Env :=
  mkEnv
    (fun _ _ => Some "reply")
    (fun _ =>
       Some (PDict [("is_relevant", PStr "Yes"); ("is_competitor", PStr "No");
                    ("job_tier", PStr "Lead")]))
    (fun _ _ =>
       Some (PDict [("results",
                     PList [PDict [("url", PStr "https://acme.example/jobs")]])]))
    (fun _ => Some [sample_listing; plain_listing]).

(** As [env_lead], but the search capability raises on every query. *)
Definition env_no_link : Env :=
  mkEnv (groq_create env_lead) (json_loads env_lead)
    (fun _ _ => None) (firecrawl_scrape env_lead).

(** Every capability raises. *)
Definition env_down : Env :=
  mkEnv (fun _ _ => None) (fun _ => None) (fun _ _ => None) (fun _ => None).


Definition sample_state : JobState :=
  mkJobState "Data Scientist" "Acme Corp" "2 years"
    "Looking for a data scientist..." PNone PNone PNone.

Definition plain_state : JobState :=
  mkJobState "Chef" "Acme Corp" "2 years" "Kitchen work" PNone PNone PNone.

(** A world whose heap holds [sample_posting] at reference 0 and
    [plain_posting] at reference 1. *)
Definition sample_world : world :=
  mkWorld "Data Science" (<[1 := plain_posting]> {[0 := sample_posting]}) [].

(** Some character of the string is an upper-case ASCII letter. *)
Fixpoint has_upper (s : string) : bool :=
  match s with
  | EmptyString => false
  | String c s' => PyStr.is_upper c || has_upper s'
  end.

(** The completion for [prompt] succeeds and its content parses to
    [v]. *)
Definition reply_parses_to (E : Env) (hist : list event) (prompt : string)
    (v : pyval) : Prop :=
  exists content,
    groq_create E hist prompt = Some content
    /\ json_loads E content = Some v.

(** The parsed reply is not an object, or is an object without [key]. *)
Definition lacks_key (v : pyval) (key : string) : Prop :=
  match v with
  | PDict d => Py.assoc key d = None
  | _ => True
  end.

(** Every completion parses to a JSON array. *)
Definition env_array_reply : Env :=
  mkEnv (fun _ _ => Some "reply") (fun _ => Some (PList [PStr "Yes"]))
    (tavily_search env_lead) (firecrawl_scrape env_lead).

(** Every completion parses to an object whose three values are not
    strings. *)
Definition env_null_reply : Env :=
  mkEnv
    (fun _ _ => Some "reply")
    (fun _ =>
       Some (PDict [("is_relevant", PNone); ("is_competitor", PBool false);
                    ("job_tier", PInt 3)]))
    (tavily_search env_lead) (firecrawl_scrape env_lead).

(** The value is a Python [str]. *)
Definition is_str (v : pyval) : bool :=
  match v with
  | PStr _ => true
  | _ => false
  end.

(** Every completion parses to an object that answers "Maybe". *)
Definition env_maybe_reply : Env :=
  mkEnv
    (fun _ _ => Some "reply")
    (fun _ =>
       Some (PDict [("is_relevant", PStr "Maybe");
                    ("is_competitor", PStr "Maybe")]))
    (tavily_search env_lead) (firecrawl_scrape env_lead).

(** The columns [process_job] reads to build the classification state,
    in the order it reads them. *)
Definition judged_columns : list string :=
  ["Title"; "Company"; "Experience"; "Description"].

(** A posting scraped without a "Company" column. *)
Definition no_company_posting : gmap string pyval :=
  delete "Company" sample_posting.

(** As [env_lead], with a page whose second listing has no salary
    element. *)
Definition env_one_incomplete : Env :=
  mkEnv (groq_create env_lead) (json_loads env_lead)
    (tavily_search env_lead)
    (fun _ => Some [sample_listing; no_salary_listing]).

(** The dictionary has column [k], and [str()] of what it holds is
    [s]. *)
Definition column_str (d : gmap string pyval) (k s : string) : Prop :=
  exists v, d !! k = Some v /\ Py.str v = s.

(** * Properties *)

Local Open Scope list_scope.

(** ** Strings *)

Lemma startswith_spec (p s : string) :
  PyStr.startswith p s = true <-> exists post, s = p +:+ post.
Proof.
  revert s. induction p as [|a p IH]; intros s; simpl.
  - split; [intros _; exists s; reflexivity | reflexivity].
  - destruct s as [|b s]; simpl.
    + split; [discriminate | intros [post H]; discriminate].
    + rewrite andb_true_iff, IH, Ascii.eqb_eq. split.
      * intros [-> [post ->]]. exists post. reflexivity.
      * intros [post H]. injection H as -> ->. split; [reflexivity | eauto].
Qed.

Lemma contains_spec (p s : string) :
  PyStr.contains p s = true <-> PyStr.occurs_in p s.
Proof.
  unfold PyStr.occurs_in. induction s as [|b s IH].
  - simpl. rewrite orb_false_r, startswith_spec. split.
    + intros [post H]. exists "", post. exact H.
    + intros [pre [post H]]. destruct pre; [exists post; exact H | discriminate].
  - simpl. rewrite orb_true_iff, startswith_spec, IH. split.
    + intros [[post H] | [pre [post H]]].
      * exists "", post. exact H.
      * exists (String b pre), post. simpl. rewrite H. reflexivity.
    + intros [pre [post H]]. destruct pre as [|c pre]; simpl in H.
      * left. exists post. exact H.
      * right. injection H as -> H. exists pre, post. exact H.
Qed.

Lemma lower_char_idem (c : ascii) :
  PyStr.lower_char (PyStr.lower_char c) = PyStr.lower_char c.
Proof.
  destruct c as [[] [] [] [] [] [] [] []]; reflexivity.
Qed.

Lemma lower_idem (s : string) : PyStr.lower (PyStr.lower s) = PyStr.lower s.
Proof.
  induction s as [|c s IH]; simpl; [reflexivity|].
  rewrite lower_char_idem, IH. reflexivity.
Qed.

Lemma lower_app (s t : string) :
  PyStr.lower (s +:+ t) = PyStr.lower s +:+ PyStr.lower t.
Proof.
  induction s as [|c s IH]; simpl; [reflexivity | rewrite IH; reflexivity].
Qed.

(** ** Recency filter *)

(** C7.  [is_job_recent] is a pure function of its argument: it is true
    exactly when one of the six fixed phrases occurs as a substring of the
    lower-cased date string, so it cannot tell a string from its
    lower-cased form; it accepts "Posted 2 days ago" and "Just Now" and
    rejects "3 weeks ago". *)
Theorem is_job_recent_substring_match :
  (forall s : string,
      is_job_recent s = true <->
      exists p, In p recency_phrases /\ PyStr.occurs_in p (PyStr.lower s))
  /\ (forall s : string, is_job_recent (PyStr.lower s) = is_job_recent s)
  /\ is_job_recent "Posted 2 days ago" = true
  /\ is_job_recent "3 weeks ago" = false
  /\ is_job_recent "Just Now" = true.
Proof.
  split; [|split; [|repeat split]].
  - intros s. unfold is_job_recent. rewrite existsb_exists.
    split; intros [p [Hin Hp]]; exists p; (split; [exact Hin|]);
      apply contains_spec; exact Hp.
  - intros s. unfold is_job_recent. rewrite lower_idem. reflexivity.
Qed.

(** ** Effects: normal forms *)

Lemma log_log (w : world) (a b : list event) :
  log (log w a) b = log w (a ++ b).
Proof. unfold log. simpl. rewrite <- app_assoc. reflexivity. Qed.

Lemma log_nil (w : world) : log w [] = w.
Proof. destruct w. unfold log. simpl. rewrite app_nil_r. reflexivity. Qed.

Lemma emit_eq (e : event) (w : world) : emit e w = (Ok tt, log w [e]).
Proof. reflexivity. Qed.

Lemma chat_completion_eq (E : Env) (p : string) (w : world) :
  chat_completion E p w =
  (match groq_create E (trace w) p with
   | Some c => Ok c
   | None => Raise APIError
   end, log w [EClassify p]).
Proof.
  unfold chat_completion, bind, get_world. rewrite emit_eq.
  destruct (groq_create E (trace w) p); reflexivity.
Qed.

Lemma search_eq (E : Env) (q : string) (w : world) :
  search E q w =
  (match tavily_search E (trace w) q with
   | Some r => Ok r
   | None => Raise APIError
   end, log w [ESearch q]).
Proof.
  unfold search, bind, get_world. rewrite emit_eq.
  destruct (tavily_search E (trace w) q); reflexivity.
Qed.

(** The common shape of the three [try] blocks. *)
Lemma stage_call_eq (E : Env) (prompt key : string) (dflt : pyval)
    (set : pyval -> JobState -> M JobState)
    (upd : pyval -> JobState -> JobState) (st : JobState) (w : world) :
  (forall v s w0, set v s w0 = (Ok (upd v s), log w0 [EWrite key v])) ->
  try_except
    (content <- chat_completion E prompt ;;
     out <- loads E content ;;
     v <- lift (Py.get out key dflt) ;;
     set v st)
    (set dflt st) w =
  (Ok (upd (stage_value E (trace w) prompt key dflt) st),
   log w [EClassify prompt;
          EWrite key (stage_value E (trace w) prompt key dflt)]).
Proof.
  intros Hset. unfold try_except, bind, stage_value.
  rewrite chat_completion_eq.
  destruct (groq_create E (trace w) prompt) as [content|].
  - unfold loads. destruct (json_loads E content) as [out|].
    + unfold ret, lift.
      destruct out; simpl; rewrite Hset, log_log; reflexivity.
    + unfold raise. rewrite Hset, log_log. reflexivity.
  - rewrite Hset, log_log. reflexivity.
Qed.

Lemma check_relevance_fast (E : Env) (st : JobState) (w : world) :
  shortcut (GLOBAL_FIELD w) st = true ->
  check_relevance E st w =
  (Ok (with_is_relevant (PStr "Yes") st),
   log w [EWrite "is_relevant" (PStr "Yes")]).
Proof.
  intros H. unfold check_relevance, bind, get_world. rewrite H. reflexivity.
Qed.

Lemma check_relevance_slow (E : Env) (st : JobState) (w : world) :
  shortcut (GLOBAL_FIELD w) st = false ->
  let p := relevance_prompt (GLOBAL_FIELD w) st in
  let v := stage_value E (trace w) p "is_relevant" (PStr "No") in
  check_relevance E st w =
  (Ok (with_is_relevant v st), log w [EClassify p; EWrite "is_relevant" v]).
Proof.
  intros H p v. unfold check_relevance, bind, get_world. rewrite H.
  apply (stage_call_eq E p "is_relevant" (PStr "No") set_is_relevant
           with_is_relevant).
  reflexivity.
Qed.

Lemma check_competitor_eq (E : Env) (st : JobState) (w : world) :
  let p := competitor_prompt st in
  let v := stage_value E (trace w) p "is_competitor" (PStr "No") in
  check_competitor E st w =
  (Ok (with_is_competitor v st),
   log w [EClassify p; EWrite "is_competitor" v]).
Proof.
  intros p v. unfold check_competitor.
  apply (stage_call_eq E p "is_competitor" (PStr "No") set_is_competitor
           with_is_competitor).
  reflexivity.
Qed.

Lemma determine_tier_eq (E : Env) (st : JobState) (w : world) :
  let p := tier_prompt st in
  let v := stage_value E (trace w) p "job_tier" (PStr "N/A") in
  determine_tier E st w =
  (Ok (with_job_tier v st), log w [EClassify p; EWrite "job_tier" v]).
Proof.
  intros p v. unfold determine_tier.
  apply (stage_call_eq E p "job_tier" (PStr "N/A") set_job_tier
           with_job_tier).
  reflexivity.
Qed.

(** ** The pipeline *)

Lemma lifecycle_app (a b : list event) :
  lifecycle (a ++ b) = lifecycle a ++ lifecycle b.
Proof.
  induction a as [|[] a IH]; simpl; rewrite ?IH; reflexivity.
Qed.

Lemma classify_calls_app (a b : list event) :
  classify_calls (a ++ b) = classify_calls a + classify_calls b.
Proof.
  induction a as [|[] a IH]; simpl; rewrite ?IH; reflexivity.
Qed.

Lemma search_queries_app (a b : list event) :
  search_queries (a ++ b) = search_queries a ++ search_queries b.
Proof.
  induction a as [|[] a IH]; simpl; rewrite ?IH; reflexivity.
Qed.

Lemma relevance_cases (E : Env) (st : JobState) (w : world) :
  exists v evs,
    check_relevance E st w = (Ok (with_is_relevant v st), log w evs)
    /\ lifecycle evs = [EWrite "is_relevant" v]
    /\ search_queries evs = []
    /\ classify_calls evs <= 1.
Proof.
  destruct (shortcut (GLOBAL_FIELD w) st) eqn:Hs.
  - eexists _, _. split; [apply check_relevance_fast; exact Hs|].
    repeat split; simpl; lia.
  - eexists _, _. split; [apply check_relevance_slow; exact Hs|].
    repeat split; simpl; lia.
Qed.

Lemma run_node (g : StateGraph) (fuel : nat) (cur next : string)
    (f : JobState -> M JobState) (st : JobState) (w : world) :
  find_named cur (edges g) = Some next ->
  String.eqb next END = false ->
  find_named next (nodes g) = Some f ->
  run g (S fuel) cur st w =
  (st' <- f st ;; run g fuel next st') (log w [EStage next]).
Proof.
  intros He Hn Hf. simpl. rewrite He, Hn, Hf. reflexivity.
Qed.

Lemma run_end (g : StateGraph) (fuel : nat) (cur : string) (st : JobState)
    (w : world) :
  find_named cur (edges g) = Some END ->
  run g (S fuel) cur st w = (Ok st, w).
Proof. intros He. simpl. rewrite He. reflexivity. Qed.

(** The compiled graph runs the three stages in order and always
    returns. *)
Lemma invoke_build_graph (E : Env) (st : JobState) (w : world) :
  exists v1 v2 v3 evs,
    invoke (build_graph E) st w =
      (Ok (mkJobState (Title st) (Company st) (Experience st)
             (Description st) v1 v2 v3), log w evs)
    /\ lifecycle evs =
         [EStage "relevance"; EWrite "is_relevant" v1;
          EStage "competitor"; EWrite "is_competitor" v2;
          EStage "tier"; EWrite "job_tier" v3]
    /\ search_queries evs = []
    /\ classify_calls evs <= 3.
Proof.
  unfold invoke, recursion_limit.
  rewrite (run_node _ _ START "relevance" (check_relevance E))
    by reflexivity.
  unfold bind at 1.
  destruct (relevance_cases E st (log w [EStage "relevance"]))
    as (v1 & evs1 & -> & Hl1 & Hs1 & Hc1).
  rewrite (run_node _ _ "relevance" "competitor" (check_competitor E))
    by reflexivity.
  unfold bind at 1. rewrite check_competitor_eq.
  rewrite (run_node _ _ "competitor" "tier" (determine_tier E))
    by reflexivity.
  unfold bind at 1. rewrite determine_tier_eq.
  rewrite run_end by reflexivity.
  rewrite !log_log. cbn [with_is_relevant with_is_competitor with_job_tier
    Title Company Experience Description is_relevant is_competitor job_tier].
  eexists v1, _, _, _. split; [reflexivity|].
  rewrite !lifecycle_app, !search_queries_app, !classify_calls_app, Hl1, Hs1.
  repeat split. simpl. lia.
Qed.

(** ** Enrichment resolver *)

Lemma search_with_tavily_eq (E : Env) (q : string) (w : world) :
  search_with_tavily E q w =
  (Ok (url_of (tavily_search E (trace w) q)), log w [ESearch q]).
Proof.
  unfold search_with_tavily, try_except, bind. rewrite search_eq.
  unfold url_of.
  destruct (tavily_search E (trace w) q) as [resp|]; [|reflexivity].
  unfold lift.
  destruct (Py.contains "results" resp) as [[]|]; try reflexivity.
  destruct (Py.getitem resp "results") as [results|]; [|reflexivity].
  destruct (Py.truthy results); [|reflexivity].
  destruct (Py.getitem0 results) as [first|]; [|reflexivity].
  destruct (Py.getitem first "url"); reflexivity.
Qed.

Lemma get_company_career_page_eq (E : Env) (c : string) (w : world) :
  let q1 := c +:+ " careers" in
  let u1 := url_of (tavily_search E (trace w) q1) in
  let u2 := url_of (tavily_search E (trace w ++ [ESearch q1]) c) in
  get_company_career_page E c w =
  if Py.truthy u1 then (Ok u1, log w [ESearch q1])
  else (Ok u2, log w [ESearch q1; ESearch c]).
Proof.
  intros q1 u1 u2. unfold get_company_career_page, bind.
  rewrite search_with_tavily_eq. fold q1 u1.
  destruct (Py.truthy u1); [reflexivity|].
  rewrite search_with_tavily_eq, log_log. reflexivity.
Qed.

(** The resolver neither reads nor writes the heap or the global. *)
Lemma get_company_career_page_frame (E : Env) (c : string) (w w' : world)
    (o : outcome pyval) (g : string) (h : gmap nat (gmap string pyval)) :
  get_company_career_page E c w = (o, w') ->
  get_company_career_page E c (mkWorld g h (trace w)) =
    (o, mkWorld g h (trace w'))
  /\ heap w' = heap w /\ GLOBAL_FIELD w' = GLOBAL_FIELD w.
Proof.
  rewrite !get_company_career_page_eq. simpl.
  destruct (Py.truthy _); intros [= <- <-]; auto.
Qed.

(** ** Posting dictionaries *)

Lemma dict_getitem_ok (job : nat) (k : string) (v : pyval) (w : world)
    (d : gmap string pyval) :
  heap w !! job = Some d -> d !! k = Some v ->
  dict_getitem job k w = (Ok v, w).
Proof.
  intros Hj Hk. unfold dict_getitem. rewrite Hj, Hk. reflexivity.
Qed.

Lemma dict_getitem_inv (job : nat) (k : string) (v : pyval) (w w' : world) :
  dict_getitem job k w = (Ok v, w') ->
  w' = w /\ exists d, heap w !! job = Some d /\ d !! k = Some v.
Proof.
  unfold dict_getitem.
  destruct (heap w !! job) as [d|] eqn:Hj; [|discriminate].
  destruct (d !! k) as [x|] eqn:Hk; [|discriminate].
  intros [= -> <-]. split; [reflexivity | exists d; auto].
Qed.

Lemma dict_getitem_world (job : nat) (k : string) (w w' : world)
    (o : outcome pyval) :
  dict_getitem job k w = (o, w') -> w' = w.
Proof.
  unfold dict_getitem.
  destruct (heap w !! job) as [d|]; [|intros [= _ <-]; reflexivity].
  destruct (d !! k) as [v|]; intros [= _ <-]; reflexivity.
Qed.

(** ** [process_job] *)

Lemma classify_ok (E : Env) (job : nat) (field : string) (w : world)
    (d : gmap string pyval) (t c e ds : string) :
  heap w !! job = Some d -> judged d t c e ds ->
  classify E job field w =
  invoke (build_graph E) (mkJobState t c e ds PNone PNone PNone)
    (mkWorld field (heap w) (trace w)).
Proof.
  intros Hj (Ht & Hc & He & Hd). unfold classify, bind, set_global_field.
  rewrite (dict_getitem_ok job "Title" (PStr t) _ d) by assumption.
  rewrite (dict_getitem_ok job "Company" (PStr c) _ d) by assumption.
  rewrite (dict_getitem_ok job "Experience" (PStr e) _ d) by assumption.
  rewrite (dict_getitem_ok job "Description" (PStr ds) _ d) by assumption.
  reflexivity.
Qed.

Lemma classify_inv (E : Env) (job : nat) (field : string) (w w1 : world)
    (result : JobState) :
  classify E job field w = (Ok result, w1) ->
  exists d evs,
    heap w !! job = Some d
    /\ (d !! "Title" = Some (PStr (Title result))
        /\ column_str d "Company" (Company result)
        /\ column_str d "Experience" (Experience result)
        /\ d !! "Description" = Some (PStr (Description result)))
    /\ w1 = log (mkWorld field (heap w) (trace w)) evs
    /\ search_queries evs = []
    /\ lifecycle evs =
         [EStage "relevance"; EWrite "is_relevant" (is_relevant result);
          EStage "competitor"; EWrite "is_competitor" (is_competitor result);
          EStage "tier"; EWrite "job_tier" (job_tier result)].
Proof.
  unfold classify, bind, set_global_field.
  destruct (dict_getitem job "Title" _) as [[vt|] w2] eqn:Ht; [|discriminate].
  apply dict_getitem_inv in Ht as [-> (d & Hj & Ht)].
  destruct (dict_getitem job "Company" _) as [[vc|] w2] eqn:Hc;
    [|discriminate].
  apply dict_getitem_inv in Hc as [-> (d2 & Hj2 & Hc)].
  destruct (dict_getitem job "Experience" _) as [[ve|] w2] eqn:He;
    [|discriminate].
  apply dict_getitem_inv in He as [-> (d3 & Hj3 & He)].
  destruct (dict_getitem job "Description" _) as [[vd|] w2] eqn:Hd;
    [|discriminate].
  apply dict_getitem_inv in Hd as [-> (d4 & Hj4 & Hd)].
  simpl in Hj, Hj2, Hj3, Hj4.
  rewrite Hj in Hj2, Hj3, Hj4.
  injection Hj2 as <-. injection Hj3 as <-. injection Hj4 as <-.
  destruct vt as [| | |t| |]; try discriminate;
    destruct vd as [| | |ds| |]; try discriminate.
  destruct (invoke_build_graph E
              (mkJobState t (Py.str vc) (Py.str ve) ds PNone PNone PNone)
              (mkWorld field (heap w) (trace w)))
    as (v1 & v2 & v3 & evs & -> & Hl & Hs & _).
  intros [= <- <-]. exists d, evs. simpl.
  split; [exact Hj|]. split; [|repeat split; assumption].
  split; [exact Ht|]. split; [exists vc; auto|].
  split; [exists ve; auto | exact Hd].
Qed.

(** Lines 134-139 on a posting that has a company column. *)
Lemma enrich_eq (E : Env) (job : nat) (result : JobState) (w : world)
    (d : gmap string pyval) (c : string) :
  heap w !! job = Some d -> column_str d "Company" c ->
  let d1 := <["Job Tier" := job_tier result]> d in
  let w1 := mkWorld (GLOBAL_FIELD w) (<[job := d1]> (heap w)) (trace w) in
  enrich E job result w =
  match get_company_career_page E c w1 with
  | (Ok link, w2) =>
      if Py.truthy link then
        (Ok (Some job),
         mkWorld (GLOBAL_FIELD w2)
           (<[job := <["Job Link" := link]> d1]> (heap w2)) (trace w2))
      else (Ok None, w2)
  | (Raise e, w2) => (Raise e, w2)
  end.
Proof.
  intros Hj (vc & Hc & <-) d1 w1. unfold enrich, bind.
  unfold dict_setitem at 1. rewrite Hj. fold d1 w1.
  rewrite (dict_getitem_ok job "Company" vc w1 d1).
  - destruct (get_company_career_page E (Py.str vc) w1)
      as [[link|ex] w2] eqn:Hg; [|reflexivity].
    destruct (Py.truthy link); simpl; [|reflexivity].
    unfold dict_setitem.
    apply (get_company_career_page_frame E (Py.str vc) w1 w2 _
             (GLOBAL_FIELD w1) (heap w1)) in Hg as (_ & Hh & _).
    rewrite Hh. unfold w1 at 1. simpl. rewrite lookup_insert_eq.
    reflexivity.
  - unfold w1. simpl. apply lookup_insert_eq.
  - unfold d1. rewrite lookup_insert_ne by discriminate. exact Hc.
Qed.

Lemma process_job_after_classify (E : Env) (job : nat) (field : string)
    (w w1 : world) (result : JobState) :
  classify E job field w = (Ok result, w1) ->
  process_job E job field w =
  match gate_drops result with
  | Ok true => (Ok None, w1)
  | Ok false => enrich E job result w1
  | Raise e => (Raise e, w1)
  end.
Proof.
  intros Hc. unfold process_job, bind. rewrite Hc. unfold lift.
  destruct (gate_drops result) as [[]|]; reflexivity.
Qed.


(** ** Post-pipeline filter *)

(** A slot that holds no string has no [lower] method: the comparison
    raises instead of deciding. *)
Remark gate_drops_unset_slot (t c e d : string) (v : pyval) :
  gate_drops (mkJobState t c e d PNone v v) = Raise AttributeError
  /\ gate_drops (mkJobState t c e d (PStr "Yes") PNone v) = Raise AttributeError
  /\ gate_drops (mkJobState t c e d (PStr "No") PNone v) = Ok true.
Proof. repeat split. Qed.




(** ** Relevance stage: the keyword shortcut *)

Lemma split_from_nospace (cur s : string) :
  nospace cur = true ->
  Forall (fun t => nospace t = true) (PyStr.split_from cur s).
Proof.
  revert cur. induction s as [|c s IH]; intros cur Hcur; simpl.
  - destruct cur; [constructor | repeat constructor; exact Hcur].
  - destruct (PyStr.is_space c) eqn:Hc.
    + destruct cur.
      * apply IH. reflexivity.
      * constructor; [exact Hcur | apply IH; reflexivity].
    + apply IH. clear IH. induction cur as [|a cur IHc]; simpl in *.
      * rewrite Hc. reflexivity.
      * apply andb_true_iff in Hcur as [Ha Hcur].
        rewrite Ha, (IHc Hcur). reflexivity.
Qed.

Lemma rstrip_nospace (t : string) : nospace t = true -> PyStr.rstrip t = t.
Proof.
  induction t as [|c t IH]; simpl; [reflexivity|].
  intros H. apply andb_true_iff in H as [Hc Ht].
  rewrite (IH Ht). destruct t; [|reflexivity].
  apply negb_true_iff in Hc. rewrite Hc. reflexivity.
Qed.

Lemma strip_nospace (t : string) : nospace t = true -> PyStr.strip t = t.
Proof.
  intros H. unfold PyStr.strip.
  assert (PyStr.lstrip t = t) as ->.
  { destruct t as [|c t]; [reflexivity|]. simpl in *.
    apply andb_true_iff in H as [Hc _]. apply negb_true_iff in Hc.
    rewrite Hc. reflexivity. }
  apply rstrip_nospace, H.
Qed.

(** Stripping the tokens of [split] changes nothing. *)
Lemma variants_tokens (f : string) :
  variants f = PyStr.split (default f (FIELD_KEYWORDS !! f)) ++ [f].
Proof.
  unfold variants. f_equal.
  assert (Forall (fun t => nospace t = true)
            (PyStr.split (default f (FIELD_KEYWORDS !! f)))) as H
    by (apply split_from_nospace; reflexivity).
  induction H as [|t l Ht _ IH]; simpl; [reflexivity|].
  rewrite (strip_nospace t Ht), IH. reflexivity.
Qed.



(** ** Tier stage *)

(** C3, as stated, fails: a reply that parses to an object whose
    [job_tier] is "Lead" is stored as it is, and "Lead" is none of the
    four allowed values. *)
Lemma tier_stage_stores_invalid_value :
  fst (determine_tier env_lead sample_state sample_world) =
    Ok (with_job_tier (PStr "Lead") sample_state)
  /\ ~ In (job_tier (with_job_tier (PStr "Lead") sample_state)) tiers.
Proof.
  split; [reflexivity|].
  simpl. intros [H | [H | [H | [H | []]]]]; discriminate H.
Qed.

(** C3, amended.  The tier stage makes one call and always returns.  It
    stores the reply's [job_tier] value unchanged, whatever that value
    is, when the reply parses to an object that has the key; it stores
    "N/A" when the call raises, the reply does not parse, the parsed
    value is not an object or the key is missing. *)
Theorem tier_stage_stores_reply_or_default (E : Env) (st : JobState)
    (w : world) :
  let p := tier_prompt st in
  let v :=
    match groq_create E (trace w) p with
    | None => PStr "N/A"
    | Some content =>
        match json_loads E content with
        | Some (PDict d) =>
            match Py.assoc "job_tier" d with
            | Some x => x
            | None => PStr "N/A"
            end
        | _ => PStr "N/A"
        end
    end in
  determine_tier E st w =
    (Ok (with_job_tier v st), log w [EClassify p; EWrite "job_tier" v])
  /\ job_tier (with_job_tier v st) = v.
Proof.
  intros p v. split; [|reflexivity].
  rewrite determine_tier_eq. fold p.
  assert (stage_value E (trace w) p "job_tier" (PStr "N/A") = v) as ->;
    [|reflexivity].
  unfold stage_value, v.
  destruct (groq_create E (trace w) p) as [content|]; [|reflexivity].
  destruct (json_loads E content) as [[| | | | |d]|]; reflexivity.
Qed.

(** ** Capability failures *)

Lemma stage_value_fails (E : Env) (hist : list event) (prompt key : string)
    (dflt : pyval) :
  capability_fails E hist prompt -> stage_value E hist prompt key dflt = dflt.
Proof.
  unfold capability_fails, stage_value.
  destruct (groq_create E hist prompt) as [content|]; [|reflexivity].
  intros ->. reflexivity.
Qed.

(** C4.  When the call to the classification capability raises or its
    reply does not parse, each stage still returns normally, has made
    that one call only, and has stored its default: "No" for relevance,
    "No" for the competitor check, "N/A" for the tier. *)
Theorem stage_failure_writes_default (E : Env) (st : JobState) (w : world) :
  (shortcut (GLOBAL_FIELD w) st = false ->
   capability_fails E (trace w) (relevance_prompt (GLOBAL_FIELD w) st) ->
   check_relevance E st w =
     (Ok (with_is_relevant (PStr "No") st),
      log w [EClassify (relevance_prompt (GLOBAL_FIELD w) st);
             EWrite "is_relevant" (PStr "No")]))
  /\ (capability_fails E (trace w) (competitor_prompt st) ->
      check_competitor E st w =
        (Ok (with_is_competitor (PStr "No") st),
         log w [EClassify (competitor_prompt st);
                EWrite "is_competitor" (PStr "No")]))
  /\ (capability_fails E (trace w) (tier_prompt st) ->
      determine_tier E st w =
        (Ok (with_job_tier (PStr "N/A") st),
         log w [EClassify (tier_prompt st); EWrite "job_tier" (PStr "N/A")])).
Proof.
  split; [|split].
  - intros Hs Hf. rewrite (check_relevance_slow E st w Hs).
    rewrite (stage_value_fails _ _ _ _ _ Hf). reflexivity.
  - intros Hf. rewrite check_competitor_eq.
    rewrite (stage_value_fails _ _ _ _ _ Hf). reflexivity.
  - intros Hf. rewrite determine_tier_eq.
    rewrite (stage_value_fails _ _ _ _ _ Hf). reflexivity.
Qed.

Lemma stage_failure_writes_default_witness :
  check_relevance env_down plain_state sample_world =
    (Ok (with_is_relevant (PStr "No") plain_state),
     log sample_world
       [EClassify (relevance_prompt "Data Science" plain_state);
        EWrite "is_relevant" (PStr "No")])
  /\ check_competitor env_down plain_state sample_world =
       (Ok (with_is_competitor (PStr "No") plain_state),
        log sample_world
          [EClassify (competitor_prompt plain_state);
           EWrite "is_competitor" (PStr "No")])
  /\ determine_tier env_down plain_state sample_world =
       (Ok (with_job_tier (PStr "N/A") plain_state),
        log sample_world
          [EClassify (tier_prompt plain_state);
           EWrite "job_tier" (PStr "N/A")]).
Proof.
  destruct (stage_failure_writes_default env_down plain_state sample_world)
    as (Hr & Hc & Ht).
  split; [|split].
  - apply Hr; [vm_compute; reflexivity | exact I].
  - apply Hc. exact I.
  - apply Ht. exact I.
Defined.

(** ** Enrichment *)

(** C5.  The resolver always returns.  It first searches for the company
    name followed by " careers"; when that yields a URL it returns it and
    searches no more; otherwise it searches for the bare company name
    and returns what that yields.  A search yields the "url" of the
    first entry of "results", and the empty string when the capability
    raises or reports no result. *)
Theorem resolver_two_step_search (E : Env) (c : string) (w : world) :
  let q1 := c +:+ " careers" in
  let u1 := url_of (tavily_search E (trace w) q1) in
  let u2 := url_of (tavily_search E (trace w ++ [ESearch q1]) c) in
  (exists evs,
      get_company_career_page E c w =
        (Ok (if Py.truthy u1 then u1 else u2), log w evs)
      /\ search_queries evs = (if Py.truthy u1 then [q1] else [q1; c])
      /\ classify_calls evs = 0)
  /\ url_of None = PStr ""
  /\ url_of (Some (PDict [])) = PStr ""
  /\ url_of (Some (PDict [("results", PList [])])) = PStr ""
  /\ (forall (u : pyval) (r d : list (string * pyval)) (rest : list pyval),
        url_of (Some (PDict (("results",
                              PList (PDict (("url", u) :: r) :: rest)) :: d)))
        = u).
Proof.
  intros q1 u1 u2. split.
  - rewrite get_company_career_page_eq. fold q1 u1 u2.
    destruct (Py.truthy u1); eexists; repeat split.
  - repeat split.
Qed.

(** ** Pipeline composition *)

Lemma writes_to_lifecycle (slot : string) (evs : list event) :
  writes_to slot (lifecycle evs) = writes_to slot evs.
Proof.
  induction evs as [|[] evs IH]; simpl; rewrite ?IH; reflexivity.
Qed.

(** C8.  Whatever the capabilities answer, running the compiled graph
    returns normally after entering relevance, competitor and tier in
    that order, each stage writing its own slot once and no other; the
    four posting fields of the state are carried through unchanged and
    the heap is not touched.  The pipeline itself decides nothing:
    [process_job] applies its filter to the state the graph returns. *)
Theorem pipeline_runs_three_stages_in_order (E : Env) (st : JobState)
    (w : world) :
  (exists v1 v2 v3 evs,
      invoke (build_graph E) st w =
        (Ok (mkJobState (Title st) (Company st) (Experience st)
               (Description st) v1 v2 v3), log w evs)
      /\ lifecycle evs =
           [EStage "relevance"; EWrite "is_relevant" v1;
            EStage "competitor"; EWrite "is_competitor" v2;
            EStage "tier"; EWrite "job_tier" v3]
      /\ writes_to "is_relevant" evs = 1
      /\ writes_to "is_competitor" evs = 1
      /\ writes_to "job_tier" evs = 1)
  /\ (forall (job : nat) (field : string),
        process_job E job field =
        (result <- classify E job field ;;
         drop <- lift (gate_drops result) ;;
         if drop then ret None else enrich E job result)).
Proof.
  split; [|reflexivity].
  destruct (invoke_build_graph E st w)
    as (v1 & v2 & v3 & evs & Hrun & Hl & _).
  exists v1, v2, v3, evs. split; [exact Hrun|]. split; [exact Hl|].
  rewrite <- !(writes_to_lifecycle _ evs), Hl. repeat split.
Qed.

(** ** Dropped and kept postings *)

(** A posting that passes the filter and for which the resolver finds
    nothing: [process_job] returns [None] after the two searches, having
    already stored the tier in the caller's dictionary. *)
Lemma process_job_no_link (E : Env) (job : nat) (field : string)
    (w w1 w2 : world) (result : JobState) (link : pyval)
    (d : gmap string pyval) :
  heap w !! job = Some d ->
  classify E job field w = (Ok result, w1) ->
  gate_drops result = Ok false ->
  get_company_career_page E (Company result) w1 = (Ok link, w2) ->
  Py.truthy link = false ->
  let w' :=
    mkWorld field
      (<[job := <["Job Tier" := job_tier result]> d]> (heap w)) (trace w2) in
  process_job E job field w = (Ok None, w')
  /\ exists evs,
       trace w2 = trace w1 ++ evs
       /\ search_queries evs =
            [Company result +:+ " careers"; Company result].
Proof.
  intros Hj Hcl Hg Hlink Hfalsy w'.
  rewrite (process_job_after_classify E job field w w1 result Hcl), Hg.
  apply classify_inv in Hcl as (d0 & evs0 & Hj0 & (_ & Hc & _) & -> & _).
  rewrite Hj in Hj0. injection Hj0 as <-.
  rewrite (enrich_eq E job result _ d (Company result)) by assumption.
  simpl.
  destruct (get_company_career_page_frame E (Company result) _ _ _ field
              (<[job := <["Job Tier" := job_tier result]> d]> (heap w))
              Hlink) as (Hrun & _ & _).
  simpl in Hrun. rewrite Hrun, Hfalsy. split; [reflexivity|].
  rewrite get_company_career_page_eq in Hlink.
  destruct (Py.truthy (url_of _)) eqn:Hu in Hlink;
    injection Hlink as <- <-.
  - simpl in Hu. congruence.
  - eexists. split; reflexivity.
Qed.

Lemma loop_body_none (E : Env) (domain : string) (job : nat)
    (processed : list nat) (w w' : world) :
  process_job E job domain w = (Ok None, w') ->
  loop_body E domain job processed w = (Ok processed, w').
Proof. intros H. unfold loop_body, bind. rewrite H. reflexivity. Qed.

(** C6.  A posting passes the filter and the resolver returns a false
    value: [process_job] returns [None] after the resolver's two
    searches, with no further attempt; the loop appends nothing for it
    and goes on with the postings that follow. *)
Theorem enrichment_failure_drops_one_posting (E : Env) (job : nat)
    (field : string) (w w1 w2 : world) (result : JobState) (link : pyval)
    (d : gmap string pyval) :
  heap w !! job = Some d ->
  classify E job field w = (Ok result, w1) ->
  gate_drops result = Ok false ->
  get_company_career_page E (Company result) w1 = (Ok link, w2) ->
  Py.truthy link = false ->
  exists w',
    process_job E job field w = (Ok None, w')
    /\ (exists evs,
          trace w' = trace w1 ++ evs
          /\ search_queries evs =
               [Company result +:+ " careers"; Company result])
    /\ (forall processed,
          loop_body E field job processed w = (Ok processed, w'))
    /\ (forall jobs processed,
          loop E field (job :: jobs) processed w =
          loop E field jobs processed w').
Proof.
  intros Hj Hcl Hg Hlink Hfalsy.
  destruct (process_job_no_link E job field w w1 w2 result link d
              Hj Hcl Hg Hlink Hfalsy) as (Hp & Hev).
  eexists. split; [exact Hp|]. split; [exact Hev|]. split.
  - intros processed. apply loop_body_none, Hp.
  - intros jobs processed. simpl. unfold bind at 1.
    rewrite (loop_body_none E field job processed w _ Hp). reflexivity.
Qed.

(** C10.  In the same situation the caller's dictionary has been
    changed although nothing is returned: it now maps "Job Tier" to the
    tier the pipeline chose. *)
Theorem dropped_posting_keeps_job_tier (E : Env) (job : nat)
    (field : string) (w w1 w2 : world) (result : JobState) (link : pyval)
    (d : gmap string pyval) :
  heap w !! job = Some d ->
  classify E job field w = (Ok result, w1) ->
  gate_drops result = Ok false ->
  get_company_career_page E (Company result) w1 = (Ok link, w2) ->
  Py.truthy link = false ->
  exists w' d',
    process_job E job field w = (Ok None, w')
    /\ heap w' !! job = Some d'
    /\ d' = <["Job Tier" := job_tier result]> d
    /\ d' !! "Job Tier" = Some (job_tier result).
Proof.
  intros Hj Hcl Hg Hlink Hfalsy.
  destruct (process_job_no_link E job field w w1 w2 result link d
              Hj Hcl Hg Hlink Hfalsy) as (Hp & _).
  eexists _, _. split; [exact Hp|]. simpl.
  split; [apply lookup_insert_eq|]. split; [reflexivity|].
  apply lookup_insert_eq.
Qed.

Lemma enrichment_failure_drops_one_posting_witness :
  exists w',
    process_job env_no_link 0 "Data Science" sample_world = (Ok None, w')
    /\ (exists evs,
          trace w' =
            trace (snd (classify env_no_link 0 "Data Science" sample_world))
            ++ evs
          /\ search_queries evs = ["Acme Corp careers"; "Acme Corp"])
    /\ (forall processed,
          loop_body env_no_link "Data Science" 0 processed sample_world =
          (Ok processed, w'))
    /\ (forall jobs processed,
          loop env_no_link "Data Science" (0 :: jobs) processed sample_world =
          loop env_no_link "Data Science" jobs processed w').
Proof.
  apply (enrichment_failure_drops_one_posting env_no_link 0 "Data Science"
           sample_world
           (snd (classify env_no_link 0 "Data Science" sample_world))
           (snd (get_company_career_page env_no_link "Acme Corp"
                   (snd (classify env_no_link 0 "Data Science"
                           sample_world))))
           (mkJobState "Data Scientist" "Acme Corp" "2 years"
              "Looking for a data scientist..."
              (PStr "Yes") (PStr "No") (PStr "Lead"))
           (PStr "") sample_posting).
  - vm_compute. reflexivity.
  - vm_compute. reflexivity.
  - reflexivity.
  - vm_compute. reflexivity.
  - reflexivity.
Defined.

Lemma dropped_posting_keeps_job_tier_witness :
  exists w' d',
    process_job env_no_link 0 "Data Science" sample_world = (Ok None, w')
    /\ heap w' !! 0 = Some d'
    /\ d' = <["Job Tier" := PStr "Lead"]> sample_posting
    /\ d' !! "Job Tier" = Some (PStr "Lead").
Proof.
  apply (dropped_posting_keeps_job_tier env_no_link 0 "Data Science"
           sample_world
           (snd (classify env_no_link 0 "Data Science" sample_world))
           (snd (get_company_career_page env_no_link "Acme Corp"
                   (snd (classify env_no_link 0 "Data Science"
                           sample_world))))
           (mkJobState "Data Scientist" "Acme Corp" "2 years"
              "Looking for a data scientist..."
              (PStr "Yes") (PStr "No") (PStr "Lead"))
           (PStr "") sample_posting).
  - vm_compute. reflexivity.
  - vm_compute. reflexivity.
  - reflexivity.
  - vm_compute. reflexivity.
  - reflexivity.
Defined.

(** A returned posting is the caller's dictionary with the two keys
    added. *)
Lemma process_job_some_inv (E : Env) (job r : nat) (field : string)
    (w w' : world) (d : gmap string pyval) :
  heap w !! job = Some d ->
  process_job E job field w = (Ok (Some r), w') ->
  exists tier link,
    r = job
    /\ Py.truthy link = true
    /\ heap w' =
         <[job := <["Job Link" := link]> (<["Job Tier" := tier]> d)]> (heap w).
Proof.
  intros Hj Hp. unfold process_job, bind in Hp.
  destruct (classify E job field w) as [[result|] w1] eqn:Hcl;
    [|discriminate].
  unfold lift in Hp.
  destruct (gate_drops result) as [[]|]; try discriminate.
  apply classify_inv in Hcl as (d0 & evs0 & Hj0 & (_ & Hc & _) & -> & _).
  rewrite Hj in Hj0. injection Hj0 as <-.
  rewrite (enrich_eq E job result _ d (Company result)) in Hp by assumption.
  simpl in Hp.
  destruct (get_company_career_page E (Company result) _)
    as [[link|] w2] eqn:Hg; [|discriminate].
  destruct (Py.truthy link) eqn:Ht; [|discriminate].
  apply (get_company_career_page_frame E (Company result) _ _ _ field
           (heap w)) in Hg as (_ & Hh & _).
  injection Hp as <- <-. exists (job_tier result), link.
  split; [reflexivity|]. split; [exact Ht|].
  simpl. rewrite Hh. simpl. apply insert_insert_eq.
Qed.

(** C9.  When [process_job] returns a posting, it is the caller's own
    dictionary, to which the keys "Job Tier" and "Job Link" have been
    added; every other key, and so each of the eight scraped columns,
    maps to what it did before, and no other dictionary has changed.
    The loop then applies the recency filter to the "Posted Date" it
    reads from that dictionary, which is the scraped text. *)
Theorem kept_posting_adds_two_keys_only (E : Env) (job r : nat)
    (field : string) (w w' : world) (d : gmap string pyval) :
  heap w !! job = Some d ->
  process_job E job field w = (Ok (Some r), w') ->
  r = job
  /\ exists d',
       heap w' !! job = Some d'
       /\ dom d' = dom d ∪ {["Job Tier"; "Job Link"]}
       /\ (forall k, k <> "Job Tier" -> k <> "Job Link" -> d' !! k = d !! k)
       /\ Forall (fun k => d' !! k = d !! k) scraped_columns
       /\ (forall l, l <> job -> heap w' !! l = heap w !! l)
       /\ (forall (date : string) (processed : list nat),
             d !! "Posted Date" = Some (PStr date) ->
             loop_body E field job processed w =
             (Ok (if is_job_recent date then processed ++ [job]
                  else processed), w')).
Proof.
  intros Hj Hp.
  destruct (process_job_some_inv E job r field w w' d Hj Hp)
    as (tier & link & -> & Ht & Hh).
  split; [reflexivity|].
  exists (<["Job Link" := link]> (<["Job Tier" := tier]> d)).
  assert (forall k, k <> "Job Tier" -> k <> "Job Link" ->
            <["Job Link" := link]> (<["Job Tier" := tier]> d) !! k = d !! k)
    as Hframe.
  { intros k H1 H2. rewrite !lookup_insert_ne by congruence. reflexivity. }
  split; [rewrite Hh; apply lookup_insert_eq|].
  split.
  { rewrite !dom_insert_L. apply set_eq. intros k.
    rewrite !elem_of_union, !elem_of_singleton. tauto. }
  split; [exact Hframe|].
  split.
  { unfold scraped_columns.
    repeat (constructor; [apply Hframe; discriminate|]). constructor. }
  split; [intros l Hl; rewrite Hh; apply lookup_insert_ne; congruence|].
  intros date processed Hd. unfold loop_body, bind. rewrite Hp.
  unfold dict_truthy, bind, get_world. rewrite Hh, lookup_insert_eq.
  unfold ret.
  assert (dom (<["Job Link" := link]> (<["Job Tier" := tier]> d)) <> ∅) as Hne.
  { rewrite dom_insert_L. intros Hempty.
    apply (not_elem_of_empty (C := gset string) "Job Link").
    rewrite <- Hempty. apply elem_of_union_l, elem_of_singleton. reflexivity. }
  rewrite (bool_decide_eq_false_2 _ Hne). simpl.
  unfold dict_getitem. rewrite Hh, lookup_insert_eq.
  rewrite Hframe, Hd by discriminate. simpl.
  destruct (is_job_recent date); reflexivity.
Qed.

Lemma kept_posting_adds_two_keys_only_witness :
  0 = 0
  /\ exists d',
       heap (snd (process_job env_lead 0 "Data Science" sample_world)) !! 0
         = Some d'
       /\ dom d' = dom sample_posting ∪ {["Job Tier"; "Job Link"]}
       /\ (forall k, k <> "Job Tier" -> k <> "Job Link" ->
             d' !! k = sample_posting !! k)
       /\ Forall (fun k => d' !! k = sample_posting !! k) scraped_columns
       /\ (forall l, l <> 0 ->
             heap (snd (process_job env_lead 0 "Data Science" sample_world))
               !! l = heap sample_world !! l)
       /\ (forall (date : string) (processed : list nat),
             sample_posting !! "Posted Date" = Some (PStr date) ->
             loop_body env_lead "Data Science" 0 processed sample_world =
             (Ok (if is_job_recent date then processed ++ [0]
                  else processed),
              snd (process_job env_lead 0 "Data Science" sample_world))).
Proof.
  apply (kept_posting_adds_two_keys_only env_lead 0 0 "Data Science"
           sample_world
           (snd (process_job env_lead 0 "Data Science" sample_world))
           sample_posting).
  - vm_compute. reflexivity.
  - vm_compute. reflexivity.
Defined.

(** ** A run of the domain loop *)

(** Two rows are scraped for "Data Science".  Both pass the filter (the
    first through the keyword shortcut, the second on the capability's
    answer), both get a link and both are recent, so both appear in the
    table, each with its two added columns. *)
Example scrape_jobs_for_domain_sample :
  fst (scrape_jobs_for_domain env_lead "Data Science" (mkWorld "" ∅ [])) =
  Ok [<["Job Link" := PStr "https://acme.example/jobs"]>
        (<["Job Tier" := PStr "Lead"]> sample_posting);
      <["Job Link" := PStr "https://acme.example/jobs"]>
        (<["Job Tier" := PStr "Lead"]> plain_posting)].
Proof. vm_compute. reflexivity. Qed.

(** With the search capability down nothing is kept, and the run still
    completes. *)
Example scrape_jobs_for_domain_no_link :
  fst (scrape_jobs_for_domain env_no_link "Data Science" (mkWorld "" ∅ [])) =
  Ok [].
Proof. vm_compute. reflexivity. Qed.

(** * Further properties of the code *)

(** ** [scrape_url]: the row builder *)

Lemma text_or_empty_some (l : listing) (sel t : string) :
  select_one l sel = Some t -> text_or_empty l sel = Ok (PStr t).
Proof.
  intros H. unfold text_or_empty. rewrite H. simpl.
  destruct t; reflexivity.
Qed.

Lemma text_or_empty_none (l : listing) (sel : string) :
  select_one l sel = None -> text_or_empty l sel = Raise AttributeError.
Proof. intros H. unfold text_or_empty. rewrite H. reflexivity. Qed.

Lemma scrape_row_complete (l : listing) :
  complete l ->
  scrape_row l =
  Ok (list_to_map
        [("Title", PStr (column_text l "a.title"));
         ("Company", PStr (column_text l "a.comp-name, a.subTitle"));
         ("Experience", PStr (column_text l "span.expwdth, li.experience"));
         ("Description",
          PStr (column_text l "span.job-desc, div.job-description"));
         ("Posted Date",
          PStr (column_text l "span.fleft.postedDate, span.job-post-day"));
         ("Location", PStr (column_text l "span.locWdth, li.location"));
         ("Salary", PStr (column_text l "span.sal-wrap, li.salary"));
         ("Skills", PStr (Py.join ", " (select_all l "li.tag, li.tag-li")))]).
Proof.
  unfold complete, column_selectors. intros H.
  repeat match goal with
         | H : Forall _ (_ :: _) |- _ =>
             let Hx := fresh "Hx" in
             apply Forall_cons in H as [[? Hx] H]; simpl in Hx
         end.
  unfold scrape_row, column_text.
  repeat match goal with
         | Hx : select_one l ?sel = Some ?t |- _ =>
             rewrite (text_or_empty_some l sel t Hx); rewrite Hx; clear Hx
         end.
  reflexivity.
Qed.

Lemma scrape_row_incomplete (l : listing) :
  ~ complete l -> scrape_row l = Raise AttributeError.
Proof.
  intros Hn. unfold scrape_row.
  repeat match goal with
         | |- obind (text_or_empty l ?sel) _ = _ =>
             destruct (select_one l sel) as [?t|] eqn:?H;
             [ rewrite (text_or_empty_some l sel _ ltac:(eassumption));
               cbn [obind]
             | rewrite (text_or_empty_none l sel ltac:(assumption));
               reflexivity ]
         end.
  exfalso. apply Hn. unfold complete, column_selectors.
  repeat constructor; simpl; eauto.
Qed.

Lemma complete_dec (l : listing) : {complete l} + {~ complete l}.
Proof. unfold complete. apply Forall_dec. intros cs. apply _. Qed.

Lemma scrape_rows_ok_inv (ws : list listing)
    (rows : list (gmap string pyval)) :
  scrape_rows ws = Ok rows ->
  Forall2 (fun l row => complete l /\ scrape_row l = Ok row) ws rows.
Proof.
  revert rows. induction ws as [|l ws IH]; simpl; intros rows H.
  - injection H as <-. constructor.
  - destruct (complete_dec l) as [Hc | Hc].
    + destruct (scrape_row l) as [row|] eqn:Hr; [|discriminate].
      simpl in H. destruct (scrape_rows ws) as [rows'|]; [|discriminate].
      injection H as <-. constructor; [auto | apply IH; reflexivity].
    + rewrite (scrape_row_incomplete l Hc) in H. discriminate.
Qed.

(** X1.  When [scrape_url] returns, it returns one row per wrapper of
    the page, in page order; each row has exactly the eight scraped
    columns; the seven single-valued columns hold the text of their
    element and "Skills" holds the tag texts joined by ", " (the empty
    string when there is no tag). *)
Theorem scrape_url_rows_have_eight_text_columns
    (fetch : string -> option (list listing)) (url : string)
    (rows : list (gmap string pyval)) :
  scrape_url fetch url = Ok rows ->
  exists ws,
    fetch url = Some ws
    /\ Forall2
         (fun l row =>
            dom row = list_to_set scraped_columns
            /\ Forall (fun cs =>
                         row !! fst cs = Some (PStr (column_text l (snd cs))))
                 column_selectors
            /\ row !! "Skills" =
                 Some (PStr (Py.join ", " (select_all l "li.tag, li.tag-li"))))
         ws rows.
Proof.
  unfold scrape_url. destruct (fetch url) as [ws|]; [|discriminate].
  intros H. exists ws. split; [reflexivity|].
  apply scrape_rows_ok_inv in H.
  induction H as [|l row ws rows [Hc Hr] _ IH]; constructor; [|exact IH].
  rewrite (scrape_row_complete l Hc) in Hr. injection Hr as <-.
  split; [|split].
  - vm_compute. reflexivity.
  - unfold column_selectors. repeat constructor.
  - reflexivity.
Qed.

Lemma scrape_url_rows_have_eight_text_columns_witness :
  exists ws,
    (fun _ : string => Some [full_listing; full_listing]) "page" = Some ws
    /\ Forall2
         (fun l row =>
            dom row = list_to_set scraped_columns
            /\ Forall (fun cs =>
                         row !! fst cs = Some (PStr (column_text l (snd cs))))
                 column_selectors
            /\ row !! "Skills" =
                 Some (PStr (Py.join ", " (select_all l "li.tag, li.tag-li"))))
         ws
         (match scrape_rows [full_listing; full_listing] with
          | Ok rows => rows
          | Raise _ => []
          end).
Proof.
  apply (scrape_url_rows_have_eight_text_columns
           (fun _ => Some [full_listing; full_listing]) "page").
  vm_compute. reflexivity.
Defined.

(** X2.  [scrape_url] raises [AttributeError] exactly when some wrapper
    of the page lacks one of the seven single-valued elements: one
    incomplete listing makes the whole page fail, and no missing element
    is replaced by the empty string. *)
Theorem scrape_url_fails_on_one_incomplete_listing
    (fetch : string -> option (list listing)) (url : string)
    (ws : list listing) :
  fetch url = Some ws ->
  (scrape_url fetch url = Raise AttributeError <-> ~ Forall complete ws)
  /\ (Forall complete ws <-> exists rows, scrape_url fetch url = Ok rows).
Proof.
  intros Hf. unfold scrape_url. rewrite Hf. clear Hf.
  assert (Forall complete ws -> exists rows, scrape_rows ws = Ok rows) as Hok.
  { intros Hall. induction Hall as [|l ws Hc Hall IH]; simpl.
    - eexists. reflexivity.
    - destruct IH as [rows IH].
      rewrite (scrape_row_complete l Hc), IH. simpl. eexists. reflexivity. }
  assert (~ Forall complete ws -> scrape_rows ws = Raise AttributeError)
    as Hbad.
  { clear Hok.
    induction ws as [|l ws IH]; intros Hn; [destruct Hn; constructor|].
    simpl. destruct (complete_dec l) as [Hc | Hc].
    - assert (~ Forall complete ws) as Hws
        by (intros Hall; apply Hn; constructor; assumption).
      rewrite (scrape_row_complete l Hc). simpl.
      rewrite (IH Hws). reflexivity.
    - rewrite (scrape_row_incomplete l Hc). reflexivity. }
  split; split.
  - intros Hr Hall. destruct (Hok Hall) as [rows Hrows]. congruence.
  - exact Hbad.
  - exact Hok.
  - intros [rows Hrows].
    destruct (Forall_dec complete (dec := complete_dec) ws) as [H | H];
      [exact H|].
    rewrite (Hbad H) in Hrows. discriminate.
Qed.

Lemma scrape_url_fails_on_one_incomplete_listing_witness :
  (scrape_url (fun _ => Some [full_listing; no_salary_listing]) "page" =
     Raise AttributeError
   <-> ~ Forall complete [full_listing; no_salary_listing])
  /\ (Forall complete [full_listing; no_salary_listing]
      <-> exists rows,
            scrape_url (fun _ => Some [full_listing; no_salary_listing])
              "page" = Ok rows).
Proof.
  apply (scrape_url_fails_on_one_incomplete_listing
           (fun _ => Some [full_listing; no_salary_listing]) "page").
  reflexivity.
Defined.

(** ** [is_job_recent]: what substring matching accepts and rejects *)

Lemma str_app_assoc (a b c : string) : (a +:+ b) +:+ c = a +:+ b +:+ c.
Proof.
  induction a as [|x a IH]; [reflexivity|].
  change (String x ((a +:+ b) +:+ c) = String x (a +:+ b +:+ c)).
  f_equal. exact IH.
Qed.

Lemma str_length_app (a b : string) :
  String.length (a +:+ b) = String.length a + String.length b.
Proof.
  induction a as [|x a IH]; [reflexivity|].
  change (S (String.length (a +:+ b)) =
          S (String.length a + String.length b)).
  f_equal. exact IH.
Qed.

Lemma lower_length (s : string) :
  String.length (PyStr.lower s) = String.length s.
Proof.
  induction s as [|c s IH]; simpl; [reflexivity | f_equal; exact IH].
Qed.

Lemma occurs_in_context (p s pre post : string) :
  PyStr.occurs_in p s -> PyStr.occurs_in p (pre +:+ s +:+ post).
Proof.
  intros (a & b & ->). exists (pre +:+ a), (b +:+ post).
  rewrite !str_app_assoc. reflexivity.
Qed.

Lemma occurs_in_length (p s : string) :
  PyStr.occurs_in p s -> String.length p <= String.length s.
Proof. intros (a & b & ->). rewrite !str_length_app. lia. Qed.

Lemma is_job_recent_iff (s : string) :
  is_job_recent s = true <->
  exists p, In p recency_phrases /\ PyStr.occurs_in p (PyStr.lower s).
Proof.
  unfold is_job_recent. rewrite existsb_exists.
  split; intros [p [Hin Hp]]; exists p; (split; [exact Hin|]);
    apply contains_spec; exact Hp.
Qed.

(** X3.  Text around a recent date string never makes it stale: the
    filter matches anywhere in the string, with no word boundary.  So
    "13 days ago" is accepted because "3 days" occurs in it. *)
Theorem is_job_recent_ignores_surrounding_text (pre s post : string) :
  is_job_recent s = true -> is_job_recent (pre +:+ s +:+ post) = true.
Proof.
  rewrite !is_job_recent_iff. intros (p & Hin & Hocc). exists p.
  split; [exact Hin|]. rewrite !lower_app. apply occurs_in_context, Hocc.
Qed.

Lemma is_job_recent_ignores_surrounding_text_witness :
  is_job_recent "13 days ago" = true.
Proof.
  apply (is_job_recent_ignores_surrounding_text "1" "3 days" " ago").
  reflexivity.
Defined.

(** X4.  A date string of fewer than five characters, the empty string
    included, is never recent: every phrase of the allow-list has at
    least five. *)
Theorem is_job_recent_rejects_short_strings (s : string) :
  String.length s < 5 -> is_job_recent s = false.
Proof.
  intros Hlen. destruct (is_job_recent s) eqn:Hr; [|reflexivity].
  apply is_job_recent_iff in Hr as (p & Hin & Hocc).
  apply occurs_in_length in Hocc. rewrite lower_length in Hocc.
  assert (5 <= String.length p).
  { unfold recency_phrases in Hin. simpl in Hin.
    destruct Hin as [<- | [<- | [<- | [<- | [<- | [<- | []]]]]]]; simpl; lia. }
  lia.
Qed.

Lemma is_job_recent_rejects_short_strings_witness :
  is_job_recent "" = false.
Proof.
  apply (is_job_recent_rejects_short_strings ""). simpl. lia.
Defined.

(** ** [check_relevance]: when the shortcut fires *)

Lemma contains_empty (s : string) : PyStr.contains "" s = true.
Proof. destruct s; reflexivity. Qed.

Lemma shortcut_iff (f : string) (st : JobState) :
  shortcut f st = true <->
  exists kw,
    (In kw (PyStr.split (default f (FIELD_KEYWORDS !! f))) \/ kw = f)
    /\ PyStr.occurs_in kw (relevance_text st).
Proof.
  unfold shortcut. rewrite variants_tokens, existsb_exists.
  split; intros (kw & Hin & Hocc); exists kw.
  - apply in_app_or in Hin as [H | [<- | []]];
      (split; [auto | apply contains_spec, Hocc]).
  - split; [|apply contains_spec, Hocc].
    apply in_or_app. destruct Hin as [H | ->]; [left; exact H|].
    right. left. reflexivity.
Qed.

(** X5.  The relevance stage calls the classification capability at most
    once, and it does so exactly when no acceptance token (a token of the
    keyword string, or the label) occurs in the lower-cased text. *)
Theorem relevance_calls_iff_no_token (E : Env) (st : JobState) (w : world) :
  exists v evs,
    check_relevance E st w = (Ok (with_is_relevant v st), log w evs)
    /\ classify_calls evs <= 1
    /\ (classify_calls evs = 0 <->
        exists kw,
          (In kw (PyStr.split
                    (default (GLOBAL_FIELD w)
                       (FIELD_KEYWORDS !! GLOBAL_FIELD w)))
           \/ kw = GLOBAL_FIELD w)
          /\ PyStr.occurs_in kw (relevance_text st)).
Proof.
  pose proof (shortcut_iff (GLOBAL_FIELD w) st) as Hiff.
  destruct (shortcut (GLOBAL_FIELD w) st) eqn:Hs.
  - eexists _, _. split; [apply check_relevance_fast; exact Hs|].
    simpl. split; [lia|]. split; [intros _; apply Hiff; reflexivity|].
    reflexivity.
  - eexists _, _. split; [apply check_relevance_slow; exact Hs|].
    simpl. split; [lia|]. split; [discriminate|].
    intros H. apply Hiff in H. discriminate.
Qed.

(** X6.  With the empty string as domain label every posting is marked
    relevant without a call: the label is itself an acceptance token and
    the empty string occurs in every text. *)
Theorem relevance_empty_label_accepts_all (E : Env) (st : JobState)
    (w : world) :
  GLOBAL_FIELD w = "" ->
  check_relevance E st w =
    (Ok (with_is_relevant (PStr "Yes") st),
     log w [EWrite "is_relevant" (PStr "Yes")]).
Proof.
  intros Hf. apply check_relevance_fast. rewrite Hf. unfold shortcut.
  apply existsb_exists. exists "". split; [|apply contains_empty].
  unfold variants. apply in_or_app. right. left. reflexivity.
Qed.

Lemma relevance_empty_label_accepts_all_witness :
  check_relevance env_down plain_state (mkWorld "" ∅ []) =
    (Ok (with_is_relevant (PStr "Yes") plain_state),
     log (mkWorld "" ∅ []) [EWrite "is_relevant" (PStr "Yes")]).
Proof.
  apply (relevance_empty_label_accepts_all env_down plain_state
           (mkWorld "" ∅ [])).
  reflexivity.
Defined.

Lemma has_upper_app (a b : string) :
  has_upper (a +:+ b) = has_upper a || has_upper b.
Proof.
  induction a as [|x a IH]; [reflexivity|].
  change (PyStr.is_upper x || has_upper (a +:+ b) =
          PyStr.is_upper x || has_upper a || has_upper b).
  rewrite IH, orb_assoc. reflexivity.
Qed.

Lemma lower_char_not_upper (c : ascii) :
  PyStr.is_upper (PyStr.lower_char c) = false.
Proof. destruct c as [[] [] [] [] [] [] [] []]; reflexivity. Qed.

Lemma has_upper_lower (s : string) : has_upper (PyStr.lower s) = false.
Proof.
  induction s as [|c s IH]; simpl; [reflexivity|].
  rewrite lower_char_not_upper, IH. reflexivity.
Qed.

Lemma upper_never_in_lowered (f s : string) :
  has_upper f = true -> PyStr.contains f (PyStr.lower s) = false.
Proof.
  intros Hf. destruct (PyStr.contains f (PyStr.lower s)) eqn:Hc;
    [|reflexivity].
  apply contains_spec in Hc as (a & b & Heq).
  apply (f_equal has_upper) in Heq.
  rewrite has_upper_lower, !has_upper_app, Hf, orb_true_r in Heq.
  discriminate.
Qed.

Lemma field_keywords_labels_upper (f kw : string) :
  FIELD_KEYWORDS !! f = Some kw -> has_upper f = true.
Proof.
  unfold FIELD_KEYWORDS. intros H.
  apply elem_of_list_to_map_2, list_elem_of_In in H. simpl in H.
  repeat (destruct H as [[= <- <-] | H]; [reflexivity|]).
  destruct H.
Qed.

(** X7.  A label that has an upper-case letter is never found in the
    lower-cased text, so for each of the ten domains of [FIELD_KEYWORDS]
    the shortcut fires exactly when one of the tokens of the domain's
    keyword occurs in the text; the label appended to the tokens has no
    effect. *)
Theorem shortcut_ignores_capitalised_label (f kw : string) (st : JobState) :
  FIELD_KEYWORDS !! f = Some kw ->
  PyStr.contains f (relevance_text st) = false
  /\ shortcut f st =
       existsb (fun t => PyStr.contains t (relevance_text st))
         (PyStr.split kw).
Proof.
  intros Hk.
  assert (PyStr.contains f (relevance_text st) = false) as Hf
    by (apply upper_never_in_lowered, (field_keywords_labels_upper f kw Hk)).
  split; [exact Hf|].
  unfold shortcut. rewrite variants_tokens, Hk. simpl.
  rewrite existsb_app. simpl. rewrite Hf, !orb_false_r. reflexivity.
Qed.

Lemma shortcut_ignores_capitalised_label_witness :
  PyStr.contains "Data Science" (relevance_text sample_state) = false
  /\ shortcut "Data Science" sample_state =
       existsb (fun t => PyStr.contains t (relevance_text sample_state))
         (PyStr.split "data scientist").
Proof.
  apply (shortcut_ignores_capitalised_label "Data Science" "data scientist"
           sample_state).
  vm_compute. reflexivity.
Defined.

(** ** The stages: replies that parse *)

Lemma stage_value_lacks (E : Env) (hist : list event) (prompt key : string)
    (dflt v : pyval) :
  reply_parses_to E hist prompt v -> lacks_key v key ->
  stage_value E hist prompt key dflt = dflt.
Proof.
  intros (content & Hg & Hj) Hl. unfold stage_value. rewrite Hg, Hj.
  destruct v; try reflexivity. simpl in Hl. rewrite Hl. reflexivity.
Qed.

Lemma stage_value_has (E : Env) (hist : list event) (prompt key : string)
    (dflt x : pyval) (d : list (string * pyval)) :
  reply_parses_to E hist prompt (PDict d) -> Py.assoc key d = Some x ->
  stage_value E hist prompt key dflt = x.
Proof.
  intros (content & Hg & Hj) Hk. unfold stage_value.
  rewrite Hg, Hj, Hk. reflexivity.
Qed.

(** X8.  A reply that is valid JSON but not an object (an array, a
    string, a number, [null]), or an object without the stage's key, is
    handled like a failed call: the stage stores its default ("No",
    "No", "N/A") and returns normally. *)
Theorem stage_reply_without_key_writes_default (E : Env) (st : JobState)
    (w : world) (v : pyval) :
  (shortcut (GLOBAL_FIELD w) st = false ->
   reply_parses_to E (trace w) (relevance_prompt (GLOBAL_FIELD w) st) v ->
   lacks_key v "is_relevant" ->
   check_relevance E st w =
     (Ok (with_is_relevant (PStr "No") st),
      log w [EClassify (relevance_prompt (GLOBAL_FIELD w) st);
             EWrite "is_relevant" (PStr "No")]))
  /\ (reply_parses_to E (trace w) (competitor_prompt st) v ->
      lacks_key v "is_competitor" ->
      check_competitor E st w =
        (Ok (with_is_competitor (PStr "No") st),
         log w [EClassify (competitor_prompt st);
                EWrite "is_competitor" (PStr "No")]))
  /\ (reply_parses_to E (trace w) (tier_prompt st) v ->
      lacks_key v "job_tier" ->
      determine_tier E st w =
        (Ok (with_job_tier (PStr "N/A") st),
         log w [EClassify (tier_prompt st); EWrite "job_tier" (PStr "N/A")])).
Proof.
  split; [|split].
  - intros Hs Hr Hl. rewrite (check_relevance_slow E st w Hs).
    rewrite (stage_value_lacks _ _ _ _ _ v Hr Hl). reflexivity.
  - intros Hr Hl. rewrite check_competitor_eq.
    rewrite (stage_value_lacks _ _ _ _ _ v Hr Hl). reflexivity.
  - intros Hr Hl. rewrite determine_tier_eq.
    rewrite (stage_value_lacks _ _ _ _ _ v Hr Hl). reflexivity.
Qed.

Lemma stage_reply_without_key_writes_default_witness :
  check_relevance env_array_reply plain_state sample_world =
    (Ok (with_is_relevant (PStr "No") plain_state),
     log sample_world
       [EClassify (relevance_prompt "Data Science" plain_state);
        EWrite "is_relevant" (PStr "No")])
  /\ check_competitor env_array_reply plain_state sample_world =
       (Ok (with_is_competitor (PStr "No") plain_state),
        log sample_world
          [EClassify (competitor_prompt plain_state);
           EWrite "is_competitor" (PStr "No")])
  /\ determine_tier env_array_reply plain_state sample_world =
       (Ok (with_job_tier (PStr "N/A") plain_state),
        log sample_world
          [EClassify (tier_prompt plain_state);
           EWrite "job_tier" (PStr "N/A")]).
Proof.
  destruct (stage_reply_without_key_writes_default env_array_reply
              plain_state sample_world (PList [PStr "Yes"]))
    as (Hr & Hc & Ht).
  split; [|split].
  - apply Hr; [vm_compute; reflexivity | | exact I].
    exists "reply". split; reflexivity.
  - apply Hc; [|exact I]. exists "reply". split; reflexivity.
  - apply Ht; [|exact I]. exists "reply". split; reflexivity.
Defined.

(** X9.  The relevance stage (when the shortcut does not fire) and the
    competitor stage store the value the reply gives under their key as
    it is, whatever its type or content; neither checks that it is "Yes"
    or "No". *)
Theorem verdict_stages_store_reply_unchecked (E : Env) (st : JobState)
    (w : world) (d : list (string * pyval)) (x : pyval) :
  (shortcut (GLOBAL_FIELD w) st = false ->
   reply_parses_to E (trace w) (relevance_prompt (GLOBAL_FIELD w) st)
     (PDict d) ->
   Py.assoc "is_relevant" d = Some x ->
   check_relevance E st w =
     (Ok (with_is_relevant x st),
      log w [EClassify (relevance_prompt (GLOBAL_FIELD w) st);
             EWrite "is_relevant" x]))
  /\ (reply_parses_to E (trace w) (competitor_prompt st) (PDict d) ->
      Py.assoc "is_competitor" d = Some x ->
      check_competitor E st w =
        (Ok (with_is_competitor x st),
         log w [EClassify (competitor_prompt st);
                EWrite "is_competitor" x])).
Proof.
  split.
  - intros Hs Hr Hk. rewrite (check_relevance_slow E st w Hs).
    rewrite (stage_value_has _ _ _ _ _ x d Hr Hk). reflexivity.
  - intros Hr Hk. rewrite check_competitor_eq.
    rewrite (stage_value_has _ _ _ _ _ x d Hr Hk). reflexivity.
Qed.

Lemma verdict_stages_store_reply_unchecked_witness :
  check_relevance env_maybe_reply plain_state sample_world =
    (Ok (with_is_relevant (PStr "Maybe") plain_state),
     log sample_world
       [EClassify (relevance_prompt "Data Science" plain_state);
        EWrite "is_relevant" (PStr "Maybe")])
  /\ check_competitor env_maybe_reply plain_state sample_world =
       (Ok (with_is_competitor (PStr "Maybe") plain_state),
        log sample_world
          [EClassify (competitor_prompt plain_state);
           EWrite "is_competitor" (PStr "Maybe")]).
Proof.
  destruct (verdict_stages_store_reply_unchecked env_maybe_reply plain_state
              sample_world
              [("is_relevant", PStr "Maybe"); ("is_competitor", PStr "Maybe")]
              (PStr "Maybe")) as (Hr & Hc).
  split.
  - apply Hr; [vm_compute; reflexivity | | reflexivity].
    exists "reply". split; reflexivity.
  - apply Hc; [|reflexivity]. exists "reply". split; reflexivity.
Defined.

(** ** [search_with_tavily]: where a URL can come from *)

Lemma url_of_nonempty (resp : option pyval) :
  url_of resp <> PStr "" ->
  exists d fd rest,
    resp = Some (PDict d)
    /\ Py.assoc "results" d = Some (PList (PDict fd :: rest))
    /\ Py.assoc "url" fd = Some (url_of resp).
Proof.
  unfold url_of. intros Hne.
  destruct resp as [r|]; [|congruence].
  destruct r as [| | |s|l|d]; simpl in *; try congruence.
  - destruct (PyStr.contains "results" s); congruence.
  - destruct (existsb (Py.str_eq "results") l); congruence.
  - destruct (Py.assoc "results" d) as [results|] eqn:Hres; [|congruence].
    destruct (Py.truthy results); [|congruence].
    destruct results as [| | |s|l|d']; simpl in *; try congruence.
    + destruct s; simpl in *; congruence.
    + destruct l as [|first rest]; [congruence|].
      destruct first as [| | | | |fd]; simpl in *; try congruence.
      destruct (Py.assoc "url" fd) as [u|] eqn:Hu; [|congruence].
      exists d, fd, rest. auto.
Qed.

(** X10.  [search_with_tavily] makes one search and never raises.  What
    it returns is either the empty string or the "url" of the first
    entry of the response's "results" list: a non-empty result can only
    come from a response that is an object whose "results" is a list
    starting with an object that has a "url". *)
Theorem search_result_is_first_url_or_empty (E : Env) (q : string)
    (w w' : world) (o : outcome pyval) :
  search_with_tavily E q w = (o, w') ->
  w' = log w [ESearch q]
  /\ exists u,
       o = Ok u
       /\ (u = PStr ""
           \/ exists d fd rest,
                tavily_search E (trace w) q = Some (PDict d)
                /\ Py.assoc "results" d = Some (PList (PDict fd :: rest))
                /\ Py.assoc "url" fd = Some u).
Proof.
  rewrite search_with_tavily_eq. intros [= <- <-].
  split; [reflexivity|]. eexists. split; [reflexivity|].
  destruct (url_of (tavily_search E (trace w) q)) eqn:Hu;
    try (right; rewrite <- Hu; apply url_of_nonempty; rewrite Hu;
         discriminate).
  destruct s; [left; reflexivity|].
  right. rewrite <- Hu. apply url_of_nonempty. rewrite Hu. discriminate.
Qed.

Lemma search_result_is_first_url_or_empty_witness :
  snd (search_with_tavily env_lead "Acme Corp careers" sample_world) =
    log sample_world [ESearch "Acme Corp careers"]
  /\ exists u,
       fst (search_with_tavily env_lead "Acme Corp careers" sample_world)
         = Ok u
       /\ (u = PStr ""
           \/ exists d fd rest,
                tavily_search env_lead (trace sample_world)
                  "Acme Corp careers" = Some (PDict d)
                /\ Py.assoc "results" d = Some (PList (PDict fd :: rest))
                /\ Py.assoc "url" fd = Some u).
Proof.
  apply (search_result_is_first_url_or_empty env_lead "Acme Corp careers"
           sample_world).
  reflexivity.
Defined.

(** ** [process_job]: cost, frame and failures *)

Lemma invoke_build_graph_calls (E : Env) (st : JobState) (w : world) :
  exists st3 evs,
    invoke (build_graph E) st w = (Ok st3, log w evs)
    /\ classify_calls evs = (if shortcut (GLOBAL_FIELD w) st then 2 else 3)
    /\ search_queries evs = [].
Proof.
  unfold invoke, recursion_limit.
  rewrite (run_node _ _ START "relevance" (check_relevance E))
    by reflexivity.
  unfold bind at 1.
  destruct (shortcut (GLOBAL_FIELD w) st) eqn:Hs.
  - rewrite check_relevance_fast by exact Hs.
    rewrite (run_node _ _ "relevance" "competitor" (check_competitor E))
      by reflexivity.
    unfold bind at 1. rewrite check_competitor_eq.
    rewrite (run_node _ _ "competitor" "tier" (determine_tier E))
      by reflexivity.
    unfold bind at 1. rewrite determine_tier_eq.
    rewrite run_end by reflexivity.
    rewrite !log_log. eexists _, _. split; [reflexivity|].
    split; reflexivity.
  - rewrite check_relevance_slow by exact Hs.
    rewrite (run_node _ _ "relevance" "competitor" (check_competitor E))
      by reflexivity.
    unfold bind at 1. rewrite check_competitor_eq.
    rewrite (run_node _ _ "competitor" "tier" (determine_tier E))
      by reflexivity.
    unfold bind at 1. rewrite determine_tier_eq.
    rewrite run_end by reflexivity.
    rewrite !log_log. eexists _, _. split; [reflexivity|].
    split; reflexivity.
Qed.

Lemma gate_drops_raise (result : JobState) (e : exn) :
  gate_drops result = Raise e -> e = AttributeError.
Proof.
  unfold gate_drops.
  destruct (is_relevant result); simpl; try (intros [= <-]; reflexivity).
  destruct (negb _); [discriminate|].
  destruct (is_competitor result); simpl;
    try (intros [= <-]; reflexivity); discriminate.
Qed.

Lemma get_company_career_page_queries (E : Env) (c : string) (w : world) :
  exists link evs,
    get_company_career_page E c w = (Ok link, log w evs)
    /\ classify_calls evs = 0
    /\ (search_queries evs = [c +:+ " careers"]
        \/ search_queries evs = [c +:+ " careers"; c]).
Proof.
  rewrite get_company_career_page_eq.
  destruct (Py.truthy _); eexists _, _; (split; [reflexivity|]);
    (split; [reflexivity|]); [left | right]; reflexivity.
Qed.

(** X11.  Processing a posting whose four judged columns hold text costs
    two classification calls when the keyword shortcut fires and three
    otherwise, and no, one or two searches (for the company name with
    " careers", then for the bare name).  It returns the posting or
    [None], or raises [AttributeError]; nothing else.  No search is made
    unless the posting passed the filter. *)
Theorem process_job_call_budget (E : Env) (job : nat) (field : string)
    (w : world) (d : gmap string pyval) (t c e ds : string) :
  heap w !! job = Some d -> judged d t c e ds ->
  exists o w' evs,
    process_job E job field w = (o, w')
    /\ trace w' = trace w ++ evs
    /\ classify_calls evs =
         (if shortcut field (mkJobState t c e ds PNone PNone PNone)
          then 2 else 3)
    /\ In (search_queries evs) [[]; [c +:+ " careers"]; [c +:+ " careers"; c]]
    /\ (o = Ok (Some job) \/ o = Ok None \/ o = Raise AttributeError)
    /\ (o = Raise AttributeError -> search_queries evs = [])
    /\ (o = Ok (Some job) -> search_queries evs <> []).
Proof.
  intros Hj Hjud. pose proof Hjud as (_ & Hc & _).
  unfold process_job, bind.
  rewrite (classify_ok E job field w d t c e ds Hj Hjud).
  destruct (invoke_build_graph_calls E
              (mkJobState t c e ds PNone PNone PNone)
              (mkWorld field (heap w) (trace w)))
    as (result & evs & -> & Hcalls & Hsearch).
  simpl in Hcalls. unfold lift.
  destruct (gate_drops result) as [[]|ex] eqn:Hg.
  - eexists _, _, evs. split; [reflexivity|]. simpl.
    split; [reflexivity|]. split; [exact Hcalls|]. rewrite Hsearch.
    split; [left; reflexivity|]. split; [auto|].
    split; [reflexivity | discriminate].
  - rewrite (enrich_eq E job result _ d c)
      by (try assumption; exists (PStr c); auto).
    simpl.
    destruct (get_company_career_page_queries E c
                (mkWorld field
                   (<[job := <["Job Tier" := job_tier result]> d]> (heap w))
                   (trace w ++ evs)))
      as (link & evs2 & -> & Hc2 & Hq2).
    assert (search_queries (evs ++ evs2) = search_queries evs2) as Hq
      by (rewrite search_queries_app, Hsearch; reflexivity).
    assert (classify_calls (evs ++ evs2) = classify_calls evs) as Hcc
      by (rewrite classify_calls_app, Hc2; lia).
    assert (In (search_queries evs2)
              [[]; [c +:+ " careers"]; [c +:+ " careers"; c]]) as Hin
      by (destruct Hq2 as [-> | ->]; simpl; auto).
    assert (search_queries evs2 <> []) as Hne
      by (destruct Hq2 as [-> | ->]; discriminate).
    destruct (Py.truthy link); eexists _, _, (evs ++ evs2);
      (split; [reflexivity|]); simpl; rewrite app_assoc, Hq, Hcc;
      (split; [reflexivity|]); (split; [exact Hcalls|]);
      (split; [exact Hin|]); (split; [auto|]);
      (split; [discriminate|]); intros _; exact Hne.
  - apply gate_drops_raise in Hg as ->.
    eexists _, _, evs. split; [reflexivity|]. simpl.
    split; [reflexivity|]. split; [exact Hcalls|]. rewrite Hsearch.
    split; [left; reflexivity|]. split; [auto|].
    split; [reflexivity | discriminate].
Qed.

Lemma process_job_call_budget_witness :
  exists o w' evs,
    process_job env_lead 0 "Data Science" sample_world = (o, w')
    /\ trace w' = trace sample_world ++ evs
    /\ classify_calls evs =
         (if shortcut "Data Science" sample_state then 2 else 3)
    /\ In (search_queries evs)
         [[]; ["Acme Corp" +:+ " careers"];
          ["Acme Corp" +:+ " careers"; "Acme Corp"]]
    /\ (o = Ok (Some 0) \/ o = Ok None \/ o = Raise AttributeError)
    /\ (o = Raise AttributeError -> search_queries evs = [])
    /\ (o = Ok (Some 0) -> search_queries evs <> []).
Proof.
  apply (process_job_call_budget env_lead 0 "Data Science" sample_world
           sample_posting "Data Scientist" "Acme Corp" "2 years"
           "Looking for a data scientist...").
  - vm_compute. reflexivity.
  - repeat split.
Defined.

Lemma classify_any (E : Env) (job : nat) (field : string) (w w1 : world)
    (o : outcome JobState) :
  classify E job field w = (o, w1) ->
  exists evs,
    w1 = log (mkWorld field (heap w) (trace w)) evs
    /\ classify_calls evs <= 3 /\ search_queries evs = [].
Proof.
  unfold classify, bind, set_global_field.
  destruct (dict_getitem job "Title" _) as [[vt|] w2] eqn:Ht;
    apply dict_getitem_world in Ht as ->;
    [|intros [= _ <-]; exists []; rewrite log_nil; simpl; auto with lia].
  destruct (dict_getitem job "Company" _) as [[vc|] w2] eqn:Hc;
    apply dict_getitem_world in Hc as ->;
    [|intros [= _ <-]; exists []; rewrite log_nil; simpl; auto with lia].
  destruct (dict_getitem job "Experience" _) as [[ve|] w2] eqn:He;
    apply dict_getitem_world in He as ->;
    [|intros [= _ <-]; exists []; rewrite log_nil; simpl; auto with lia].
  destruct (dict_getitem job "Description" _) as [[vd|] w2] eqn:Hd;
    apply dict_getitem_world in Hd as ->;
    [|intros [= _ <-]; exists []; rewrite log_nil; simpl; auto with lia].
  assert (forall st,
            invoke (build_graph E) st (mkWorld field (heap w) (trace w)) =
              (o, w1) ->
            exists evs,
              w1 = log (mkWorld field (heap w) (trace w)) evs
              /\ classify_calls evs <= 3 /\ search_queries evs = [])
    as Hrun.
  { intros st.
    destruct (invoke_build_graph E st (mkWorld field (heap w) (trace w)))
      as (v1 & v2 & v3 & evs & -> & _ & Hs & Hc3).
    intros [= _ <-]. exists evs. auto. }
  destruct vt as [| | |t| |]; destruct vd as [| | |ds| |];
    try (apply Hrun);
    intros [= _ <-]; exists [EStage "relevance"]; simpl; auto with lia.
Qed.

(** What a call of [process_job] can do to the world, whatever its
    outcome. *)
Lemma process_job_any (E : Env) (job : nat) (field : string) (w w' : world)
    (o : outcome (option nat)) :
  process_job E job field w = (o, w') ->
  GLOBAL_FIELD w' = field
  /\ (forall l, l <> job -> heap w' !! l = heap w !! l)
  /\ (heap w !! job = None -> heap w' !! job = None)
  /\ (forall d,
        heap w !! job = Some d ->
        exists d',
          heap w' !! job = Some d'
          /\ forall k, k <> "Job Tier" -> k <> "Job Link" ->
                       d' !! k = d !! k).
Proof.
  unfold process_job, bind.
  destruct (classify E job field w) as [[result|ex] w1] eqn:Hcl.
  - apply classify_inv in Hcl as (d & evs & Hj & (_ & Hc & _) & -> & _).
    assert (forall (w2 : world),
              GLOBAL_FIELD w2 = field -> heap w2 = heap w ->
              GLOBAL_FIELD w2 = field
              /\ (forall l, l <> job -> heap w2 !! l = heap w !! l)
              /\ (heap w !! job = None -> heap w2 !! job = None)
              /\ (forall d0,
                    heap w !! job = Some d0 ->
                    exists d',
                      heap w2 !! job = Some d'
                      /\ forall k, k <> "Job Tier" -> k <> "Job Link" ->
                                   d' !! k = d0 !! k)) as Hsame.
    { intros w2 Hg Hh. rewrite Hh. split; [exact Hg|].
      split; [reflexivity|]. split; [auto|]. intros d0 Hd0. eauto. }
    unfold lift. destruct (gate_drops result) as [[]|ex].
    + intros [= _ <-]. apply Hsame; reflexivity.
    + rewrite (enrich_eq E job result _ d (Company result))
        by assumption.
      simpl.
      destruct (get_company_career_page_queries E (Company result)
                  (mkWorld field
                     (<[job := <["Job Tier" := job_tier result]> d]>
                        (heap w))
                     (trace w ++ evs)))
        as (link & evs2 & -> & _).
      destruct (Py.truthy link); intros [= _ <-]; simpl;
        (split; [reflexivity|]);
        (split; [intros l Hl; rewrite ?insert_insert_eq;
                 apply lookup_insert_ne; congruence|]);
        (split; [congruence|]);
        intros d0 Hd0; assert (d0 = d) as -> by congruence;
        rewrite ?insert_insert_eq, lookup_insert_eq;
        eexists; (split; [reflexivity|]);
        intros k H1 H2; rewrite ?lookup_insert_ne by congruence;
        reflexivity.
    + intros [= _ <-]. apply Hsame; reflexivity.
  - apply classify_any in Hcl as (evs & -> & _). intros [= _ <-]. simpl.
    split; [reflexivity|]. split; [reflexivity|]. split; [auto|].
    intros d Hd. eauto.
Qed.

(** X12.  Whatever its outcome, exception included, [process_job]
    leaves every other dictionary of the heap as it was, and in the
    posting it works on it changes or adds no key other than "Job Tier"
    and "Job Link": no scraped column is rewritten or removed. *)
Theorem process_job_touches_two_keys_of_its_posting (E : Env) (job : nat)
    (field : string) (w w' : world) (o : outcome (option nat))
    (d : gmap string pyval) :
  heap w !! job = Some d ->
  process_job E job field w = (o, w') ->
  (forall l, l <> job -> heap w' !! l = heap w !! l)
  /\ exists d',
       heap w' !! job = Some d'
       /\ (forall k, k <> "Job Tier" -> k <> "Job Link" -> d' !! k = d !! k)
       /\ dom d ⊆ dom d'.
Proof.
  intros Hj Hp.
  destruct (process_job_any E job field w w' o Hp) as (_ & Hl & _ & Hd).
  split; [exact Hl|].
  destruct (Hd d Hj) as (d' & Hj' & Hk). exists d'.
  split; [exact Hj'|]. split; [exact Hk|].
  intros k Hin. apply elem_of_dom in Hin as [v Hv]. apply elem_of_dom.
  destruct (decide (k = "Job Tier")) as [-> | H1];
    [|destruct (decide (k = "Job Link")) as [-> | H2]].
  - clear Hl Hd Hk. unfold process_job, bind in Hp.
    destruct (classify E job field w) as [[result|ex] w1] eqn:Hcl.
    + apply classify_inv in Hcl as (d0 & evs & Hj0 & (_ & Hc & _) & -> & _).
      assert (d0 = d) as -> by congruence.
      unfold lift in Hp. destruct (gate_drops result) as [[]|ex].
      * injection Hp as _ <-. simpl in Hj'. rewrite Hj in Hj'.
        injection Hj' as <-. eauto.
      * rewrite (enrich_eq E job result _ d (Company result)) in Hp
          by assumption.
        simpl in Hp.
        destruct (get_company_career_page_queries E (Company result)
                    (mkWorld field
                       (<[job := <["Job Tier" := job_tier result]> d]>
                          (heap w))
                       (trace w ++ evs)))
          as (link & evs2 & Hg & _).
        rewrite Hg in Hp.
        destruct (Py.truthy link); injection Hp as _ <-; simpl in Hj';
          rewrite ?insert_insert_eq, lookup_insert_eq in Hj';
          injection Hj' as <-.
        -- rewrite lookup_insert_ne by discriminate.
           rewrite lookup_insert_eq. eauto.
        -- rewrite lookup_insert_eq. eauto.
      * injection Hp as _ <-. simpl in Hj'. rewrite Hj in Hj'.
        injection Hj' as <-. eauto.
    + apply classify_any in Hcl as (evs & -> & _). injection Hp as _ <-.
      simpl in Hj'. rewrite Hj in Hj'. injection Hj' as <-. eauto.
  - clear Hl Hd Hk. unfold process_job, bind in Hp.
    destruct (classify E job field w) as [[result|ex] w1] eqn:Hcl.
    + apply classify_inv in Hcl as (d0 & evs & Hj0 & (_ & Hc & _) & -> & _).
      assert (d0 = d) as -> by congruence.
      unfold lift in Hp. destruct (gate_drops result) as [[]|ex].
      * injection Hp as _ <-. simpl in Hj'. rewrite Hj in Hj'.
        injection Hj' as <-. eauto.
      * rewrite (enrich_eq E job result _ d (Company result)) in Hp
          by assumption.
        simpl in Hp.
        destruct (get_company_career_page_queries E (Company result)
                    (mkWorld field
                       (<[job := <["Job Tier" := job_tier result]> d]>
                          (heap w))
                       (trace w ++ evs)))
          as (link & evs2 & Hg & _).
        rewrite Hg in Hp.
        destruct (Py.truthy link); injection Hp as _ <-; simpl in Hj';
          rewrite ?insert_insert_eq, lookup_insert_eq in Hj';
          injection Hj' as <-.
        -- rewrite lookup_insert_eq. eauto.
        -- rewrite lookup_insert_ne by discriminate. eauto.
      * injection Hp as _ <-. simpl in Hj'. rewrite Hj in Hj'.
        injection Hj' as <-. eauto.
    + apply classify_any in Hcl as (evs & -> & _). injection Hp as _ <-.
      simpl in Hj'. rewrite Hj in Hj'. injection Hj' as <-. eauto.
  - rewrite (Hk k H1 H2). eauto.
Qed.

Lemma process_job_touches_two_keys_of_its_posting_witness :
  (forall l, l <> 0 ->
     heap (snd (process_job env_no_link 0 "Data Science" sample_world)) !! l
     = heap sample_world !! l)
  /\ exists d',
       heap (snd (process_job env_no_link 0 "Data Science" sample_world))
         !! 0 = Some d'
       /\ (forall k, k <> "Job Tier" -> k <> "Job Link" ->
             d' !! k = sample_posting !! k)
       /\ dom sample_posting ⊆ dom d'.
Proof.
  apply (process_job_touches_two_keys_of_its_posting env_no_link 0
           "Data Science" sample_world
           (snd (process_job env_no_link 0 "Data Science" sample_world))
           (fst (process_job env_no_link 0 "Data Science" sample_world))
           sample_posting).
  - vm_compute. reflexivity.
  - vm_compute. reflexivity.
Defined.

(** X13.  When one of the four judged columns is missing from the
    posting, whatever the other columns hold, [process_job] raises
    [KeyError] before the pipeline starts and before any capability is
    called; the dictionary is unchanged, but [GLOBAL_FIELD] has already
    been overwritten. *)
Theorem process_job_missing_column_raises (E : Env) (job : nat)
    (field : string) (w : world) (d : gmap string pyval) :
  heap w !! job = Some d ->
  Exists (fun k => d !! k = None) judged_columns ->
  process_job E job field w =
    (Raise KeyError, mkWorld field (heap w) (trace w)).
Proof.
  intros Hj Hex.
  assert (forall k g t,
            dict_getitem job k (mkWorld g (heap w) t) =
            (match d !! k with
             | Some v => Ok v
             | None => Raise KeyError
             end, mkWorld g (heap w) t)) as Hget.
  { intros k g t. unfold dict_getitem. simpl. rewrite Hj.
    destruct (d !! k); reflexivity. }
  unfold process_job, classify, bind, set_global_field.
  rewrite Hget.
  destruct (d !! "Title") as [vt|] eqn:Ht; [|reflexivity].
  cbv beta iota. rewrite Hget.
  destruct (d !! "Company") as [vc|] eqn:Hc; [|reflexivity].
  cbv beta iota. rewrite Hget.
  destruct (d !! "Experience") as [ve|] eqn:He; [|reflexivity].
  cbv beta iota. rewrite Hget.
  destruct (d !! "Description") as [vd|] eqn:Hd; [|reflexivity].
  exfalso. unfold judged_columns in Hex.
  repeat match goal with
         | H : Exists _ (_ :: _) |- _ => apply Exists_cons in H as [H | H]
         | H : Exists _ [] |- _ => apply Exists_nil in H; destruct H
         end; cbv beta in *; congruence.
Qed.

Lemma process_job_missing_column_raises_witness :
  process_job env_lead 0 "Data Science"
    (mkWorld "" {[0 := <["Title" := PInt 5]> no_company_posting]} []) =
  (Raise KeyError,
   mkWorld "Data Science"
     {[0 := <["Title" := PInt 5]> no_company_posting]} []).
Proof.
  refine (process_job_missing_column_raises env_lead 0 "Data Science"
            (mkWorld "" {[0 := <["Title" := PInt 5]> no_company_posting]} [])
            (<["Title" := PInt 5]> no_company_posting) _ _).
  - vm_compute. reflexivity.
  - right. left. vm_compute. reflexivity.
Defined.

(** X14.  [process_job] sets [GLOBAL_FIELD] to its [field] argument
    before anything reads it: the outcome and the resulting world do
    not depend on the value the global had before the call, and after
    the call, however it ends, the global is [field]. *)
Theorem process_job_overrides_global_field (E : Env) (job : nat)
    (field g g' : string) (h : gmap nat (gmap string pyval))
    (t : list event) :
  process_job E job field (mkWorld g h t) =
    process_job E job field (mkWorld g' h t)
  /\ GLOBAL_FIELD (snd (process_job E job field (mkWorld g h t))) = field.
Proof.
  split; [reflexivity|].
  destruct (process_job E job field (mkWorld g h t)) as [o w'] eqn:Hp.
  apply process_job_any in Hp as (Hg & _). exact Hg.
Qed.

(** X15.  When the relevance slot comes back from the pipeline holding
    something that is not a string (the capability answered with
    [null], a number, a list...), or holds "yes" while the competitor
    slot is not a string, the filter of [process_job] raises
    [AttributeError].  Nothing catches it: the loop over the postings
    stops there, the postings after it are not processed and the list
    of kept postings is not returned. *)
Theorem non_string_verdict_aborts_the_loop (E : Env) (job : nat)
    (field : string) (w w1 : world) (result : JobState) :
  classify E job field w = (Ok result, w1) ->
  is_str (is_relevant result) = false
  \/ (exists sr,
        is_relevant result = PStr sr /\ PyStr.lower sr = "yes"
        /\ is_str (is_competitor result) = false) ->
  process_job E job field w = (Raise AttributeError, w1)
  /\ heap w1 = heap w
  /\ forall jobs processed,
       loop E field (job :: jobs) processed w = (Raise AttributeError, w1).
Proof.
  intros Hcl Hbad.
  assert (gate_drops result = Raise AttributeError) as Hg.
  { unfold gate_drops. destruct Hbad as [Hr | (sr & Hr & Hy & Hc)].
    - destruct (is_relevant result); try reflexivity. discriminate.
    - rewrite Hr. simpl. rewrite Hy. simpl.
      destruct (is_competitor result); try reflexivity. discriminate. }
  assert (process_job E job field w = (Raise AttributeError, w1)) as Hp.
  { rewrite (process_job_after_classify E job field w w1 result Hcl), Hg.
    reflexivity. }
  split; [exact Hp|]. split.
  - apply classify_inv in Hcl as (d & evs & _ & _ & -> & _). reflexivity.
  - intros jobs processed. simpl. unfold bind at 1.
    unfold loop_body, bind. rewrite Hp. reflexivity.
Qed.

Lemma non_string_verdict_aborts_the_loop_witness :
  process_job env_null_reply 1 "Data Science" sample_world =
    (Raise AttributeError,
     snd (classify env_null_reply 1 "Data Science" sample_world))
  /\ heap (snd (classify env_null_reply 1 "Data Science" sample_world)) =
     heap sample_world
  /\ forall jobs processed,
       loop env_null_reply "Data Science" (1 :: jobs) processed sample_world =
       (Raise AttributeError,
        snd (classify env_null_reply 1 "Data Science" sample_world)).
Proof.
  apply (non_string_verdict_aborts_the_loop env_null_reply 1 "Data Science"
           sample_world _
           (mkJobState "Chef" "Acme Corp" "2 years" "Kitchen work"
              PNone (PBool false) (PInt 3))).
  - vm_compute. reflexivity.
  - left. reflexivity.
Defined.

(** ** The loop of [scrape_jobs_for_domain] *)

Lemma loop_body_inv (E : Env) (domain : string) (job : nat)
    (processed p' : list nat) (w w' : world) (d : gmap string pyval) :
  heap w !! job = Some d ->
  loop_body E domain job processed w = (Ok p', w') ->
  (exists o, process_job E job domain w = (Ok o, w'))
  /\ (forall l, l <> job -> heap w' !! l = heap w !! l)
  /\ (p' = processed
      \/ (p' = processed ++ [job]
          /\ exists tier link date,
               heap w' !! job =
                 Some (<["Job Link" := link]> (<["Job Tier" := tier]> d))
               /\ Py.truthy link = true
               /\ d !! "Posted Date" = Some (PStr date)
               /\ is_job_recent date = true)).
Proof.
  intros Hj. unfold loop_body, bind.
  destruct (process_job E job domain w) as [[o|ex] w1] eqn:Hp;
    [|discriminate].
  pose proof (process_job_any E job domain w w1 _ Hp) as (_ & Hfr & _).
  destruct o as [r|]; [|intros [= <- <-]; eauto].
  destruct (process_job_some_inv E job r domain w w1 d Hj Hp)
    as (tier & link & -> & Ht & Hh).
  unfold dict_truthy, bind, get_world. rewrite Hh, lookup_insert_eq.
  unfold ret. destruct (negb (bool_decide _)); [|intros [= <- <-]; eauto].
  unfold dict_getitem. rewrite Hh, lookup_insert_eq.
  rewrite !lookup_insert_ne by discriminate.
  destruct (d !! "Posted Date") as [v|] eqn:Hd; [|discriminate].
  unfold lift, is_job_recent_of.
  destruct v as [| | |date| |]; try discriminate.
  destruct (is_job_recent date) eqn:Hr; intros [= <- <-];
    (split; [eauto|]); (split; [exact Hfr|]); [right | left; reflexivity].
  split; [reflexivity|]. exists tier, link, date.
  rewrite Hh, lookup_insert_eq. auto.
Qed.

(** X16.  The list the loop returns is the list it started from followed
    by some of the postings it was given, in the order it was given
    them: nothing is reordered, duplicated or invented. *)
Theorem loop_keeps_postings_in_scrape_order (E : Env) (domain : string)
    (jobs processed out : list nat) (w w' : world) :
  Forall (fun job => is_Some (heap w !! job)) jobs ->
  loop E domain jobs processed w = (Ok out, w') ->
  exists kept, out = processed ++ kept /\ sublist kept jobs.
Proof.
  revert processed w. induction jobs as [|job jobs IH];
    intros processed w Hall; simpl.
  - intros [= <- <-]. exists []. rewrite app_nil_r. split; constructor.
  - apply Forall_cons in Hall as [[d Hj] Hall]. unfold bind at 1.
    destruct (loop_body E domain job processed w) as [[p'|ex] w1] eqn:Hb;
      [|discriminate].
    destruct (loop_body_inv E domain job processed p' w w1 d Hj Hb)
      as ([o Hp] & Hfr & Hcase).
    assert (Forall (fun job0 => is_Some (heap w1 !! job0)) jobs) as Hall1.
    { pose proof (process_job_any E job domain w w1 _ Hp)
        as (_ & _ & _ & Hsame).
      eapply Forall_impl; [exact Hall|]. intros l [dl Hl]. simpl.
      destruct (decide (l = job)) as [-> | Hne].
      - destruct (Hsame d Hj) as (d' & Hd' & _). eauto.
      - rewrite (Hfr l Hne). eauto. }
    intros Hloop. destruct (IH p' w1 Hall1 Hloop) as (kept & -> & Hsub).
    destruct Hcase as [-> | [-> _]].
    + exists kept. split; [reflexivity|]. apply sublist_cons, Hsub.
    + exists (job :: kept). rewrite <- app_assoc. split; [reflexivity|].
      apply sublist_skip, Hsub.
Qed.

Lemma loop_keeps_postings_in_scrape_order_witness :
  exists kept,
    (match fst (loop env_lead "Data Science" [0; 1] [] sample_world) with
     | Ok out => out
     | Raise _ => []
     end) = [] ++ kept
    /\ sublist kept [0; 1].
Proof.
  apply (loop_keeps_postings_in_scrape_order env_lead "Data Science" [0; 1]
           [] _ sample_world
           (snd (loop env_lead "Data Science" [0; 1] [] sample_world))).
  - repeat constructor; vm_compute; eauto.
  - vm_compute. reflexivity.
Defined.

(** ** [scrape_jobs_for_domain] *)

Lemma alloc_records_spec (rows : list (gmap string pyval)) (w : world) :
  exists ls w1,
    alloc_records rows w = (Ok ls, w1)
    /\ GLOBAL_FIELD w1 = GLOBAL_FIELD w /\ trace w1 = trace w
    /\ NoDup ls
    /\ Forall (fun l => heap w !! l = None) ls
    /\ Forall2 (fun l row => heap w1 !! l = Some row) ls rows
    /\ (forall l d, heap w !! l = Some d -> heap w1 !! l = Some d).
Proof.
  revert w. induction rows as [|d rows IH]; intros w; simpl.
  - exists [], w. repeat split; try constructor. auto.
  - unfold bind, get_world, set_heap. simpl.
    set (l := fresh (dom (heap w))).
    assert (heap w !! l = None) as Hl
      by (apply not_elem_of_dom, is_fresh).
    destruct (IH (mkWorld (GLOBAL_FIELD w) (<[l := d]> (heap w)) (trace w)))
      as (ls & w1 & -> & Hg & Ht & Hnd & Hfresh & Hrows & Hold).
    simpl in *. exists (l :: ls), w1.
    split; [reflexivity|]. split; [exact Hg|]. split; [exact Ht|].
    assert (Forall (fun l0 => l0 <> l /\ heap w !! l0 = None) ls) as Hls.
    { eapply Forall_impl; [exact Hfresh|]. intros l0 H0. simpl in H0.
      destruct (decide (l0 = l)) as [-> | Hne].
      - rewrite lookup_insert_eq in H0. discriminate.
      - rewrite lookup_insert_ne in H0 by congruence. auto. }
    split.
    { constructor; [|exact Hnd]. intros Hin.
      apply (proj1 (Forall_forall _ _) Hls) in Hin as [Hne _]. congruence. }
    split.
    { constructor; [exact Hl|]. eapply Forall_impl; [exact Hls|].
      intros l0 [_ H0]. exact H0. }
    split.
    { constructor; [|exact Hrows]. apply Hold, lookup_insert_eq. }
    intros l0 d0 H0. apply Hold.
    rewrite lookup_insert_ne; [exact H0|]. congruence.
Qed.

Lemma rows_of_inv (rs : list nat) (w w' : world)
    (ds : list (gmap string pyval)) :
  rows_of rs w = (Ok ds, w') ->
  w' = w /\ Forall2 (fun r d => heap w !! r = Some d) rs ds.
Proof.
  revert ds w'. induction rs as [|r rs IH]; intros ds w'; simpl.
  - intros [= <- <-]. split; constructor.
  - unfold bind at 1, get_world.
    destruct (heap w !! r) as [d|] eqn:Hr; [|discriminate].
    unfold bind. destruct (rows_of rs w) as [[ds'|] w1] eqn:Hrs;
      [|discriminate].
    destruct (IH ds' w1 eq_refl) as [-> Hall].
    intros [= <- <-]. split; [reflexivity|]. constructor; assumption.
Qed.

Lemma Forall2_heap_frame (h h' : gmap nat (gmap string pyval))
    (jobs : list nat) (rows : list (gmap string pyval)) :
  (forall l, l ∈ jobs -> h' !! l = h !! l) ->
  Forall2 (fun l row => h !! l = Some row) jobs rows ->
  Forall2 (fun l row => h' !! l = Some row) jobs rows.
Proof.
  intros Hfr Hall. induction Hall as [|l row jobs rows Hl _ IH].
  - constructor.
  - constructor.
    + rewrite Hfr; [exact Hl | left].
    + apply IH. intros l0 Hin. apply Hfr. right. exact Hin.
Qed.

(** The loop, with the rows the references point to. *)
Lemma loop_rows (E : Env) (domain : string) (jobs : list nat)
    (rows : list (gmap string pyval)) (processed out : list nat)
    (w w' : world) :
  NoDup jobs ->
  Forall2 (fun l row => heap w !! l = Some row) jobs rows ->
  loop E domain jobs processed w = (Ok out, w') ->
  exists keptp : list (nat * gmap string pyval),
    sublist keptp (zip jobs rows)
    /\ out = processed ++ keptp.*1
    /\ Forall
         (fun lr =>
            exists tier link date,
              heap w' !! lr.1 =
                Some (<["Job Link" := link]> (<["Job Tier" := tier]> lr.2))
              /\ Py.truthy link = true
              /\ lr.2 !! "Posted Date" = Some (PStr date)
              /\ is_job_recent date = true) keptp
    /\ (forall l, l ∉ jobs -> heap w' !! l = heap w !! l).
Proof.
  intros Hnd Hrows. revert processed w Hrows.
  revert rows. induction jobs as [|job jobs IH];
    intros rows processed w Hrows.
  - apply Forall2_nil_inv_l in Hrows as ->. simpl. intros [= <- <-].
    exists []. rewrite app_nil_r. repeat split; constructor.
  - apply Forall2_cons_inv_l in Hrows as (row & rows' & Hj & Hrows & ->).
    apply NoDup_cons in Hnd as [Hnotin Hnd].
    simpl. unfold bind at 1.
    destruct (loop_body E domain job processed w) as [[p'|ex] w1] eqn:Hb;
      [|discriminate].
    destruct (loop_body_inv E domain job processed p' w w1 row Hj Hb)
      as (_ & Hfr & Hcase).
    assert (Forall2 (fun l r => heap w1 !! l = Some r) jobs rows') as Hrows1.
    { apply (Forall2_heap_frame (heap w)); [|exact Hrows].
      intros l Hl. apply Hfr. intros ->. contradiction. }
    intros Hloop.
    destruct (IH Hnd rows' p' w1 Hrows1 Hloop)
      as (keptp & Hsub & -> & Hkept & Hframe).
    assert (forall l, l ∉ job :: jobs -> heap w' !! l = heap w !! l)
      as Hframe'.
    { intros l Hl. apply not_elem_of_cons in Hl as [Hne Hl].
      rewrite (Hframe l Hl). apply Hfr, Hne. }
    destruct Hcase as [-> | [-> (tier & link & date & Hh & Ht & Hd & Hr)]].
    + exists keptp. split; [apply sublist_cons, Hsub|].
      split; [reflexivity|]. split; [exact Hkept | exact Hframe'].
    + exists ((job, row) :: keptp).
      split; [apply sublist_skip, Hsub|].
      split; [rewrite <- app_assoc; reflexivity|].
      split; [|exact Hframe'].
      constructor; [|exact Hkept]. simpl. exists tier, link, date.
      rewrite (Hframe job Hnotin). auto.
Qed.

Lemma kept_rows_table (h : gmap nat (gmap string pyval))
    (keptp : list (nat * gmap string pyval))
    (table : list (gmap string pyval)) :
  Forall
    (fun lr =>
       exists tier link date,
         h !! lr.1 =
           Some (<["Job Link" := link]> (<["Job Tier" := tier]> lr.2))
         /\ Py.truthy link = true
         /\ lr.2 !! "Posted Date" = Some (PStr date)
         /\ is_job_recent date = true) keptp ->
  Forall2 (fun r d => h !! r = Some d) keptp.*1 table ->
  Forall2
    (fun out row =>
       exists tier link date,
         out = <["Job Link" := link]> (<["Job Tier" := tier]> row)
         /\ Py.truthy link = true
         /\ row !! "Posted Date" = Some (PStr date)
         /\ is_job_recent date = true) table keptp.*2.
Proof.
  revert table. induction keptp as [|[l row] keptp IH]; intros table Hk Ht.
  - apply Forall2_nil_inv_l in Ht as ->. constructor.
  - simpl in Ht.
    apply Forall2_cons_inv_l in Ht as (d & table' & Hd & Ht & ->).
    apply Forall_cons in Hk as [(tier & link & date & Hl & Hrest) Hk].
    simpl in *. constructor; [|apply IH; assumption].
    exists tier, link, date. split; [congruence | exact Hrest].
Qed.

(** X17.  Every row of the table [scrape_jobs_for_domain] returns is one
    of the scraped rows, with "Job Tier" and a non-empty "Job Link"
    added and nothing else changed, and its scraped "Posted Date" is a
    string the recency filter accepts.  The rows appear in the order of
    the page, each scraped row at most once. *)
Theorem scrape_jobs_for_domain_table_rows (E : Env) (domain : string)
    (w w' : world) (table : list (gmap string pyval)) :
  scrape_jobs_for_domain E domain w = (Ok table, w') ->
  exists kw rows kept,
    FIELD_KEYWORDS !! domain = Some kw
    /\ scrape_url (firecrawl_scrape E) (listings_url kw) = Ok rows
    /\ sublist kept rows
    /\ Forall2
         (fun out row =>
            exists tier link date,
              out = <["Job Link" := link]> (<["Job Tier" := tier]> row)
              /\ Py.truthy link = true
              /\ row !! "Posted Date" = Some (PStr date)
              /\ is_job_recent date = true) table kept.
Proof.
  unfold scrape_jobs_for_domain.
  destruct (FIELD_KEYWORDS !! domain) as [kw|] eqn:Hkw; [|discriminate].
  unfold bind at 1, lift.
  destruct (scrape_url (firecrawl_scrape E) (listings_url kw))
    as [rows|ex] eqn:Hrows; [|discriminate].
  unfold bind at 1.
  destruct (alloc_records_spec rows w)
    as (jobs & w1 & -> & _ & _ & Hnd & _ & Hheap & _).
  unfold bind.
  destruct (loop E domain jobs [] w1) as [[out|ex] w2] eqn:Hloop;
    [|discriminate].
  intros Hrows_of. apply rows_of_inv in Hrows_of as [-> Htable].
  destruct (loop_rows E domain jobs rows [] out w1 w2 Hnd Hheap Hloop)
    as (keptp & Hsub & -> & Hkept & _).
  simpl in Htable.
  exists kw, rows, keptp.*2. split; [reflexivity|]. split; [exact Hrows|].
  split.
  - apply (fmap_sublist snd) in Hsub. rewrite snd_zip in Hsub; [exact Hsub|].
    apply Forall2_length in Hheap. lia.
  - apply (kept_rows_table (heap w2)); assumption.
Qed.

Lemma scrape_jobs_for_domain_table_rows_witness :
  exists kw rows kept,
    FIELD_KEYWORDS !! "Data Science" = Some kw
    /\ scrape_url (firecrawl_scrape env_lead) (listings_url kw) = Ok rows
    /\ sublist kept rows
    /\ Forall2
         (fun out row =>
            exists tier link date,
              out = <["Job Link" := link]> (<["Job Tier" := tier]> row)
              /\ Py.truthy link = true
              /\ row !! "Posted Date" = Some (PStr date)
              /\ is_job_recent date = true)
         [<["Job Link" := PStr "https://acme.example/jobs"]>
            (<["Job Tier" := PStr "Lead"]> sample_posting);
          <["Job Link" := PStr "https://acme.example/jobs"]>
            (<["Job Tier" := PStr "Lead"]> plain_posting)]
         kept.
Proof.
  apply (scrape_jobs_for_domain_table_rows env_lead "Data Science"
           (mkWorld "" ∅ [])
           (snd (scrape_jobs_for_domain env_lead "Data Science"
                   (mkWorld "" ∅ [])))).
  vm_compute. reflexivity.
Defined.

(** X18.  [scrape_jobs_for_domain] does not catch what [scrape_url]
    raises: when some listing of the page lacks one of the seven
    single-valued elements the whole run raises [AttributeError] before
    any posting is processed, without any capability call, and the
    complete listings of the page are lost with it. *)
Theorem incomplete_listing_fails_the_domain (E : Env) (domain kw : string)
    (ws : list listing) (w : world) :
  FIELD_KEYWORDS !! domain = Some kw ->
  firecrawl_scrape E (listings_url kw) = Some ws ->
  ~ Forall complete ws ->
  scrape_jobs_for_domain E domain w = (Raise AttributeError, w).
Proof.
  intros Hkw Hpage Hbad. unfold scrape_jobs_for_domain. rewrite Hkw.
  unfold bind, lift, scrape_url. rewrite Hpage.
  assert (scrape_rows ws = Raise AttributeError) as ->; [|reflexivity].
  clear Hpage. induction ws as [|l ws IH]; [destruct Hbad; constructor|].
  simpl. destruct (complete_dec l) as [Hc | Hc].
  - assert (~ Forall complete ws) as Hws
      by (intros Hall; apply Hbad; constructor; assumption).
    rewrite (scrape_row_complete l Hc). simpl.
    rewrite (IH Hws). reflexivity.
  - rewrite (scrape_row_incomplete l Hc). reflexivity.
Qed.

Lemma incomplete_listing_fails_the_domain_witness :
  scrape_jobs_for_domain env_one_incomplete "FinTech" sample_world =
    (Raise AttributeError, sample_world).
Proof.
  refine (incomplete_listing_fails_the_domain env_one_incomplete "FinTech"
            "fintech" [sample_listing; no_salary_listing] sample_world
            _ _ _).
  - vm_compute. reflexivity.
  - reflexivity.
  - intros Hall. apply Forall_cons in Hall as [_ Hall].
    apply Forall_cons in Hall as [Hc _]. unfold complete in Hc.
    apply (proj1 (Forall_forall _ _)) with
      (x := ("Salary", "span.sal-wrap, li.salary")) in Hc.
    + destruct Hc as [x Hx]. vm_compute in Hx. discriminate Hx.
    + unfold column_selectors. repeat (first [left | right]).
Defined.
